(** * A cached loader for executable configuration files

    Shallow embedding of [src/index.ts]: [loadConfig], [jsonCache],
    [logEsbuildErrors], [getHash] and [readMaybeFileSync], together with the
    parts of the JavaScript runtime they lean on (truthiness, [JSON.stringify],
    property order, UTF-8 decoding, SHA-1). The packaging script is
    embedded as well, in [Bundle].

    The file system, the console and the calls into esbuild and into the
    module loader are threaded through an explicit [World]; every call into a
    capability leaves an [event] behind, so that statements such as "the
    compiler is not invoked" are statements about the recorded events. *)

From Stdlib Require Import ZArith NArith String Ascii List Bool Lia.
From stdpp Require Import gmap strings list pretty.

Set Warnings "-register-all".

Local Open Scope string_scope.

(** ** Text *)

Module Text.

(** The double quote, written by its code so that no literal has to escape it. *)
Definition dq : string := String "034"%char EmptyString.

Definition quoted (s : string) : string := dq +:+ s +:+ dq.

(** [s.startsWith(p)]. *)
Definition startsWith (s p : string) : bool := String.prefix p s.

Fixpoint contains (c : ascii) (s : string) : bool :=
  match s with
  | EmptyString => false
  | String d s' => Ascii.eqb c d || contains c s'
  end.

(** [s.includes(needle)]. *)
Fixpoint includes (needle s : string) : bool :=
  String.prefix needle s ||
  match s with
  | EmptyString => false
  | String _ s' => includes needle s'
  end.

Definition newline : ascii := "010"%char.

Fixpoint join_with (sep : string) (l : list string) : string :=
  match l with
  | [] => ""
  | [x] => x
  | x :: rest => x +:+ sep +:+ join_with sep rest
  end.

(** A text is on one line when it has no line feed. *)
Definition one_line (s : string) : Prop := contains newline s = false.

End Text.

Export Text(one_line).

(** ** JSON values, property order and [JSON.stringify] *)

Module Json.

(** Numbers are the integers, printed in decimal: the only number the
    loader ever stores is the schema version. *)
Inductive json :=
| JNull
| JBool (b : bool)
| JNum (n : Z)
| JStr (s : string)
| JArr (items : list json)
| JObj (props : list (string * json)).

(** Objects list their own properties in enumeration order. *)
Definition object := list (string * json).

Definition is_digit (c : ascii) : bool :=
  let n := N_of_ascii c in (48 <=? n)%N && (n <=? 57)%N.

Fixpoint digits_value (acc : N) (s : string) : option N :=
  match s with
  | EmptyString => Some acc
  | String c s' =>
      if is_digit c then digits_value (10 * acc + (N_of_ascii c - 48))%N s'
      else None
  end.

(** A property key is an array index when it is the canonical decimal form
    of an integer below 2^32 - 1; such keys are enumerated first, in
    ascending order, whatever the order they were created in. *)
Definition array_index (k : string) : option N :=
  match k with
  | EmptyString => None
  | String c rest =>
      if Ascii.eqb c "0" && negb (String.eqb rest "") then None
      else match digits_value 0 k with
           | Some n => if (n <? 4294967295)%N then Some n else None
           | None => None
           end
  end.

Fixpoint lookup (k : string) (o : object) : option json :=
  match o with
  | [] => None
  | (k', v) :: rest => if String.eqb k k' then Some v else lookup k rest
  end.

Fixpoint has_key (k : string) (o : object) : bool :=
  match o with
  | [] => false
  | (k', _) :: rest => String.eqb k k' || has_key k rest
  end.

Fixpoint replace (k : string) (v : json) (o : object) : object :=
  match o with
  | [] => []
  | (k', v') :: rest =>
      if String.eqb k k' then (k', v) :: rest else (k', v') :: replace k v rest
  end.

(** Where a new array-index key [n] goes: before the first key that is not
    an index or is a larger index. *)
Fixpoint insert_index (n : N) (k : string) (v : json) (o : object) : object :=
  match o with
  | [] => [(k, v)]
  | (k', v') :: rest =>
      match array_index k' with
      | Some m => if (m <? n)%N then (k', v') :: insert_index n k v rest
                  else (k, v) :: o
      | None => (k, v) :: o
      end
  end.

(** [o[k] = v] on an ordinary object: an existing key keeps its place, a new
    index key is sorted in, any other new key goes last. *)
Definition set (k : string) (v : json) (o : object) : object :=
  if has_key k o then replace k v o
  else match array_index k with
       | Some n => insert_index n k v o
       | None => (o ++ [(k, v)])%list
       end.

(** [delete o[k]]. *)
Fixpoint remove (k : string) (o : object) : object :=
  match o with
  | [] => []
  | (k', v) :: rest =>
      if String.eqb k k' then remove k rest else (k', v) :: remove k rest
  end.

(** [{...target, ...source}]: the properties of [source] are copied onto
    [target] one by one, in the enumeration order of [source]. *)
Definition spread (target source : object) : object :=
  fold_left (fun o kv => set (fst kv) (snd kv) o) source target.

Definition hex_digit (n : N) : ascii :=
  ascii_of_N (if (n <? 10)%N then 48 + n else 87 + n).

(** QuoteJSONString, on the UTF-8 bytes of the string: the quote, the
    backslash and the control characters are escaped, every other byte is
    kept. *)
Definition escape_char (c : ascii) : string :=
  let n := N_of_ascii c in
  if (n =? 34)%N then "\" +:+ Text.dq
  else if (n =? 92)%N then "\\"
  else if (n =? 8)%N then "\b"
  else if (n =? 9)%N then "\t"
  else if (n =? 10)%N then "\n"
  else if (n =? 12)%N then "\f"
  else if (n =? 13)%N then "\r"
  else if (n <? 32)%N then
    "\u00" +:+ String (hex_digit (n / 16)) (String (hex_digit (n mod 16)) "")
  else String c "".

Fixpoint escape (s : string) : string :=
  match s with
  | EmptyString => ""
  | String c s' => escape_char c +:+ escape s'
  end.

Definition quote (s : string) : string := Text.dq +:+ escape s +:+ Text.dq.

(** The brackets around the members of an array or an object. With an
    empty [gap] there is no white space at all; with a non-empty one every
    member goes on a line of its own, indented by [indent], and the closing
    bracket goes back to [stepback]. *)
Definition wrap (gap indent stepback open close : string)
    (parts : list string) : string :=
  match parts with
  | [] => open +:+ close
  | _ =>
      if String.eqb gap "" then open +:+ Text.join_with "," parts +:+ close
      else
        let sep := "," +:+ String Text.newline indent in
        open +:+ String Text.newline indent +:+ Text.join_with sep parts
        +:+ String Text.newline stepback +:+ close
  end.

Definition colon (gap : string) : string :=
  if String.eqb gap "" then ":" else ": ".

(** SerializeJSONProperty with the given [gap]; [indent] is the current
    indentation. *)
Fixpoint serialize (gap indent : string) (v : json) : string :=
  let inner := indent +:+ gap in
  match v with
  | JNull => "null"
  | JBool true => "true"
  | JBool false => "false"
  | JNum n => pretty n
  | JStr s => quote s
  | JArr items =>
      wrap gap inner indent "[" "]"
        ((fix go (l : list json) : list string :=
            match l with
            | [] => []
            | x :: rest => serialize gap inner x :: go rest
            end) items)
  | JObj props =>
      wrap gap inner indent "{" "}"
        ((fix go (l : list (string * json)) : list string :=
            match l with
            | [] => []
            | (k, x) :: rest =>
                (quote k +:+ colon gap +:+ serialize gap inner x) :: go rest
            end) props)
  end.

(** [JSON.stringify(v)]. *)
Definition stringify (v : json) : string := serialize "" "" v.

End Json.

(** ** UTF-8 decoding, as [readFileSync(path, "utf-8")] does it *)

Module Utf8.

(** What a byte announces at the start of a sequence: itself, a sequence of
    [more] continuation bytes whose first one lies in [lo..hi], or nothing
    valid. *)
Inductive lead :=
| Single
| Lead (more : nat) (lo hi : N)
| Invalid.

Definition classify (n : N) : lead :=
  if (n <? 128)%N then Single
  else if (n <? 194)%N then Invalid
  else if (n <? 224)%N then Lead 1 128 191
  else if (n =? 224)%N then Lead 2 160 191
  else if (n =? 237)%N then Lead 2 128 159
  else if (n <? 240)%N then Lead 2 128 191
  else if (n =? 240)%N then Lead 3 144 191
  else if (n <? 244)%N then Lead 3 128 191
  else if (n =? 244)%N then Lead 3 128 143
  else Invalid.

(** U+FFFD in UTF-8. *)
Definition replacement : string :=
  String (ascii_of_N 239) (String (ascii_of_N 191) (String (ascii_of_N 189) "")).

(** The decoder, with its output written back as UTF-8: a JavaScript string
    is represented by its UTF-8 bytes throughout. A well-formed sequence is
    copied; every maximal ill-formed part becomes one U+FFFD, and the byte
    that broke a sequence is looked at again as the start of the next one.
    No byte-order mark is removed. [pending] holds the bytes of the sequence
    being read, [needed] how many continuation bytes are still missing. *)
Fixpoint decode_from (pending : string) (needed : nat) (lo hi : N)
    (bytes : string) : string :=
  match bytes with
  | EmptyString => match needed with O => "" | S _ => replacement end
  | String c rest =>
      let n := N_of_ascii c in
      let fresh :=
        match classify n with
        | Single => String c (decode_from "" 0 128 191 rest)
        | Lead more lo' hi' => decode_from (String c "") more lo' hi' rest
        | Invalid => replacement +:+ decode_from "" 0 128 191 rest
        end in
      match needed with
      | O => fresh
      | S k =>
          if (lo <=? n)%N && (n <=? hi)%N then
            match k with
            | O => pending +:+ String c (decode_from "" 0 128 191 rest)
            | S _ => decode_from (pending +:+ String c "") k 128 191 rest
            end
          else replacement +:+ fresh
      end
  end.

Definition decode (bytes : string) : string := decode_from "" 0 128 191 bytes.

(** The first code point of a well-formed string and what follows it. *)
Definition uncons (s : string) : option (string * string) :=
  match s with
  | EmptyString => None
  | String c _ =>
      let k := match classify (N_of_ascii c) with
               | Lead more _ _ => S more
               | _ => 1
               end in
      Some (substring 0 k s, substring k (String.length s - k) s)
  end.

End Utf8.

(** ** SHA-1 *)

Module Sha1.

Local Open Scope N_scope.

Definition word := N.

Definition mask32 : N := 4294967295.

Definition add32 (a b : word) : word := N.land (a + b) mask32.

Definition rotl (k : N) (x : word) : word :=
  N.land (N.lor (N.shiftl x k) (N.shiftr x (32 - k))) mask32.

Definition not32 (x : word) : word := N.lxor x mask32.

Fixpoint bytes_of (s : string) : list N :=
  match s with
  | EmptyString => []
  | String c s' => N_of_ascii c :: bytes_of s'
  end.

(** The [k] low bytes of [n], most significant first. *)
Fixpoint big_endian (k : nat) (n : N) : list N :=
  match k with
  | O => []
  | S k' => (big_endian k' (N.shiftr n 8) ++ [N.land n 255])%list
  end.

(** The message, a 1 bit, zeros up to 56 modulo 64, then the bit length on
    eight bytes. *)
Definition pad (msg : list N) : list N :=
  let len := N.of_nat (length msg) in
  let zeros := N.to_nat ((119 - len mod 64) mod 64) in
  (msg ++ 128 :: repeat 0 zeros ++ big_endian 8 (8 * len))%list.

Fixpoint words_of (fuel : nat) (bytes : list N) : list word :=
  match fuel, bytes with
  | S fuel', a :: b :: c :: d :: rest =>
      (N.shiftl a 24 + N.shiftl b 16 + N.shiftl c 8 + d) :: words_of fuel' rest
  | _, _ => []
  end.

Fixpoint chunks (fuel : nat) (ws : list word) : list (list word) :=
  match fuel, ws with
  | S fuel', _ :: _ => firstn 16 ws :: chunks fuel' (skipn 16 ws)
  | _, _ => []
  end.

(** The message schedule, most recent word first. *)
Fixpoint extend (k : nat) (rev_w : list word) : list word :=
  match k with
  | O => rev_w
  | S k' =>
      let w := rotl 1 (N.lxor (N.lxor (nth 2 rev_w 0) (nth 7 rev_w 0))
                              (N.lxor (nth 13 rev_w 0) (nth 15 rev_w 0))) in
      extend k' (w :: rev_w)
  end.

Definition schedule (block : list word) : list word :=
  rev (extend 64 (rev block)).

Record state := State { ha : word; hb : word; hc : word; hd : word; he : word }.

Definition round (t : nat) (s : state) (w : word) : state :=
  let '(State a b c d e) := s in
  let '(f, k) :=
    if (t <? 20)%nat then
      (N.lor (N.land b c) (N.land (not32 b) d), 1518500249)
    else if (t <? 40)%nat then
      (N.lxor (N.lxor b c) d, 1859775393)
    else if (t <? 60)%nat then
      (N.lor (N.lor (N.land b c) (N.land b d)) (N.land c d), 2400959708)
    else
      (N.lxor (N.lxor b c) d, 3395469782) in
  let temp := add32 (add32 (add32 (add32 (rotl 5 a) f) e) k) w in
  State temp a (rotl 30 b) c d.

Fixpoint rounds (t : nat) (s : state) (ws : list word) : state :=
  match ws with
  | [] => s
  | w :: rest => rounds (S t) (round t s w) rest
  end.

Definition compress (h : state) (block : list word) : state :=
  let '(State a b c d e) := rounds 0 h (schedule block) in
  State (add32 (ha h) a) (add32 (hb h) b) (add32 (hc h) c)
        (add32 (hd h) d) (add32 (he h) e).

Definition initial : state :=
  State 1732584193 4023233417 2562383102 271733878 3285377520.

Definition hash (msg : list N) : state :=
  let bytes := pad msg in
  fold_left compress
    (chunks (length bytes) (words_of (length bytes) bytes)) initial.

Fixpoint hex (k : nat) (n : N) : string :=
  match k with
  | O => ""
  | S k' => hex k' (N.shiftr n 4) +:+ String (Json.hex_digit (N.land n 15)) ""
  end.

(** [createHash("sha1").update(bytes).digest("hex")]. *)
Definition hexdigest (bytes : string) : string :=
  let '(State a b c d e) := hash (bytes_of bytes) in
  hex 8 a +:+ hex 8 b +:+ hex 8 c +:+ hex 8 d +:+ hex 8 e.

End Sha1.

(** ** The file system *)

Module Fs.

(** A path names a regular file with its bytes, a directory, or nothing.
    Reading looks at the path alone: a path that names nothing reads as a
    file that is not there, a directory as a directory. Failures of reading
    that depend on more than that (a regular file on the way to the path,
    permissions) have no place in this model. Writing needs the directory
    the path lies in. *)
Inductive node :=
| File (bytes : string)
| Dir.

Inductive errno := ENOENT | EISDIR | EBADF | ENOTDIR.

Definition existsSync (files : gmap string node) (path : string) : bool :=
  match files !! path with
  | Some _ => true
  | None => false
  end.

(** [readFileSync(path)]: the bytes, or the code of the error it throws. *)
Definition readFileSync (files : gmap string node) (path : string)
  : errno + string :=
  match files !! path with
  | Some (File bytes) => inr bytes
  | Some Dir => inl EISDIR
  | None => inl ENOENT
  end.

(** The directory a path lies in: what stands in front of its last slash,
    the empty text when it has none. *)
Fixpoint dirname (path : string) : string :=
  match path with
  | EmptyString => ""
  | String c rest =>
      if Text.contains "/" rest then String c (dirname rest) else ""
  end.

(** A name within a directory: no slash, and none of the empty name, [.]
    and [..]. *)
Definition plain (name : string) : bool :=
  negb (Text.contains "/" name)
  && negb (String.eqb name "") && negb (String.eqb name ".")
  && negb (String.eqb name "..").

(** Whether [dir] is a directory. The empty text stands for the directory
    the process runs in, or for the root, which are there. *)
Definition directory (files : gmap string node) (dir : string) : bool :=
  if String.eqb dir "" then true
  else match files !! dir with
       | Some Dir => true
       | _ => false
       end.

(** Why [dir] is no directory, if it is none: it or something on the way
    to it is a regular file ([ENOTDIR]), or it is not there ([ENOENT]). *)
Fixpoint missing (fuel : nat) (files : gmap string node) (dir : string)
  : option errno :=
  if String.eqb dir "" then None
  else
    match files !! dir with
    | Some Dir => None
    | Some (File _) => Some ENOTDIR
    | None =>
        match fuel with
        | O => Some ENOENT
        | S fuel' =>
            match missing fuel' files (dirname dir) with
            | Some ENOTDIR => Some ENOTDIR
            | _ => Some ENOENT
            end
        end
    end.

(** Why a file cannot be opened for writing at [path], if it cannot: the
    directory it lies in is none, or the path is a directory itself
    ([EISDIR]). *)
Definition refusal (files : gmap string node) (path : string) : option errno :=
  match missing (String.length path) files (dirname path) with
  | Some code => Some code
  | None =>
      match files !! path with
      | Some Dir => Some EISDIR
      | _ => None
      end
  end.

(** [writeFileSync(path, data)] creates the file or replaces all of it. It
    makes no directory. *)
Definition writeFileSync (files : gmap string node) (path data : string)
  : errno + gmap string node :=
  match refusal files path with
  | Some code => inl code
  | None => inr (<[path := File data]> files)
  end.

(** [mkdir -p]: the directory and those on the way to it. *)
Fixpoint mkdir_p (fuel : nat) (files : gmap string node) (dir : string)
  : errno + gmap string node :=
  if directory files dir then inr files
  else
    match files !! dir, fuel with
    | Some _, _ => inl ENOTDIR
    | None, O => inl ENOENT
    | None, S fuel' =>
        match mkdir_p fuel' files (dirname dir) with
        | inl code => inl code
        | inr files' => inr (<[dir := Dir]> files')
        end
    end.

End Fs.

(** ** JavaScript values, as far as a module export needs them *)

Module Js.

Inductive error :=
| Error (message : string)
| SyntaxError
| TypeError
| SystemError (code : Fs.errno) (path : string)
| Thrown (what : string).

Inductive result (A : Type) :=
| Ok (a : A)
| Raise (e : error).
Arguments Ok {A} a.
Arguments Raise {A} e.

(** A function is known by what a call without arguments does, a promise by
    how it settles. *)
Inductive value :=
| VUndefined
| VNull
| VBool (b : bool)
| VNumber (n : Z)
| VNaN
| VString (s : string)
| VObject (props : list (string * value))
| VPromise (settled : error + value)
| VFunction (call : error + value).

(** [!v] is [negb (truthy v)]. *)
Definition truthy (v : value) : bool :=
  match v with
  | VUndefined | VNull | VNaN => false
  | VBool b => b
  | VNumber n => negb (n =? 0)%Z
  | VString s => negb (String.eqb s "")
  | VObject _ | VPromise _ | VFunction _ => true
  end.

(** [typeof v === "function"]. *)
Definition is_function (v : value) : bool :=
  match v with
  | VFunction _ => true
  | _ => false
  end.

(** [await v]: a promise gives what it was fulfilled with or throws what it
    was rejected with, anything else is itself. *)
Fixpoint await (v : value) : result value :=
  match v with
  | VPromise (inr inner) => await inner
  | VPromise (inl e) => Raise e
  | _ => Ok v
  end.

(** [await f()]: the call throws, or returns something that is awaited. *)
Definition do_call (f : error + value) : result value :=
  match f with
  | inl e => Raise e
  | inr v => await v
  end.

(** How deep promises and returned values are nested. *)
Fixpoint size (v : value) : nat :=
  match v with
  | VPromise (inr inner) => S (size inner)
  | VFunction (inr inner) => S (size inner)
  | _ => 1
  end.

(** A module namespace: its exports by name. *)
Definition module := gmap string value.

(** [m.name], [undefined] when there is no such export. *)
Definition get (m : module) (name : string) : value :=
  default VUndefined (m !! name).

End Js.

Export Js.
Import Json.

(** ** The world a call runs in *)

(** esbuild's side of [build]. *)
Record Plugin := {
  plugin_name : string;
  (** the [onResolve] callback registered for every path: [Some external],
      or [None] when it returns nothing *)
  onResolve : string -> option bool;
}.

Record BuildOptions := {
  entryPoints : list string;
  outfile : string;
  metafile : bool;
  bundle : bool;
  format : string;
  target : string;
  platform : string;
  plugins : list Plugin;
}.

Definition Message := string.

Record BuildResult := {
  errors : list Message;
  warnings : list Message;
  (** [Object.keys(metafile.inputs)] *)
  metafile_inputs : list string;
}.

Inductive event :=
| Compile (options : BuildOptions)
| ConsoleLog (text : string)
| WriteFile (path data : string)
| Import (specifier : string).

Record World := {
  disk : gmap string Fs.node;
  (** [Date.now()] *)
  now : Z;
  (** what has been asked of the outside so far, oldest first *)
  events : list event;
}.

(** What the code gets from Node and from esbuild. [build] reads the files
    and may write some; loading a module reads them. *)
Class Runtime := {
  (** [createHash("sha1").update(bytes).digest("hex")] *)
  digest : string -> string;
  (** [JSON.parse], [None] when it throws a SyntaxError *)
  JSON_parse : string -> option json;
  (** [path.join] *)
  join : string -> string -> string;
  (** [process.cwd()], [process.env], [process.argv] *)
  cwd : string;
  env : gmap string string;
  argv : list string;
  (** [formatMessagesSync(messages, { kind, color })] *)
  formatMessagesSync : list Message -> string -> bool -> list string;
  build : gmap string Fs.node -> BuildOptions
          -> result BuildResult * gmap string Fs.node;
  import_module : gmap string Fs.node -> string -> result module;
  (** esbuild writes the output file, making its directory when that is not
      there: when [build] returns, the directory of [outfile] is there. *)
  build_outdir : forall files options result files',
    build files options = (Ok result, files') ->
    Fs.directory files' (Fs.dirname (outfile options)) = true;
  (** [join(dir, name)] lies in the same directory for every plain name. *)
  join_dirname : forall dir a b,
    Fs.plain a = true -> Fs.plain b = true ->
    Fs.dirname (join dir a) = Fs.dirname (join dir b);
}.

(** Computations that read and change the world and may throw. What was
    done before a throw stays done. *)
Definition M (A : Type) : Type := World -> result A * World.

Definition ret {A} (a : A) : M A := fun w => (Ok a, w).

Definition throw {A} (e : error) : M A := fun w => (Raise e, w).

Definition bind {A B} (m : M A) (k : A -> M B) : M B :=
  fun w =>
    match m w with
    | (Ok a, w') => k a w'
    | (Raise e, w') => (Raise e, w')
    end.

Notation "'do' x <- m ; k" := (bind m (fun x => k))
  (at level 10, x name, m at level 100, k at level 200).
Notation "'do' ' p <- m ; k" := (bind m (fun x => match x with p => k end))
  (at level 10, p pattern, m at level 100, k at level 200).
Notation "'run' m ; k" := (bind m (fun _ => k))
  (at level 10, m at level 100, k at level 200).

Definition lift {A} (r : result A) : M A := fun w => (r, w).

Definition record (e : event) : M unit :=
  fun w => (Ok tt, {| disk := disk w; now := now w;
                      events := events w ++ [e] |}).

Definition existsSync (path : string) : M bool :=
  fun w => (Ok (Fs.existsSync (disk w) path), w).

(** [readFileSync(path)], a Buffer. *)
Definition readFileSync (path : string) : M string :=
  fun w =>
    match Fs.readFileSync (disk w) path with
    | inr bytes => (Ok bytes, w)
    | inl code => (Raise (SystemError code path), w)
    end.

(** [readFileSync(path, "utf-8")], a string. *)
Definition readFileSync_utf8 (path : string) : M string :=
  do bytes <- readFileSync path; ret (Utf8.decode bytes).

Definition writeFileSync (path data : string) : M unit :=
  fun w =>
    match Fs.writeFileSync (disk w) path data with
    | inr files' =>
        (Ok tt, {| disk := files'; now := now w;
                   events := events w ++ [WriteFile path data] |})
    | inl code => (Raise (SystemError code path), w)
    end.

Definition console_log (text : string) : M unit := record (ConsoleLog text).

Definition Date_now : M Z := fun w => (Ok (now w), w).

Definition run_build `{Runtime} (options : BuildOptions) : M BuildResult :=
  fun w =>
    let '(r, files') := build (disk w) options in
    (r, {| disk := files'; now := now w;
           events := events w ++ [Compile options] |}).

Definition run_import `{Runtime} (specifier : string) : M module :=
  run record (Import specifier);
  fun w => (import_module (disk w) specifier, w).

(** ** The loader *)

(** [string | Buffer] *)
Inductive content :=
| Text (s : string)
| Buffer (bytes : string).

(** [number | string] *)
Inductive version :=
| VersionNumber (n : Z)
| VersionString (s : string).

Definition version_json (v : version) : json :=
  match v with
  | VersionNumber n => JNum n
  | VersionString s => JStr s
  end.

(** [j.name] for a name that is neither [length] nor an array index:
    reading a property of [null] throws, a primitive or an array has no
    such property. *)
Definition member (j : json) (name : string) : result (option json) :=
  match j with
  | JNull => Raise TypeError
  | JObj props => Ok (Json.lookup name props)
  | _ => Ok None
  end.

(** [delete j.name; return j] *)
Definition without (name : string) (j : json) : json :=
  match j with
  | JObj props => JObj (Json.remove name props)
  | _ => j
  end.

(** [found === v], [found] being a parsed value or [undefined]. *)
Definition strict_equal (found : option json) (v : version) : bool :=
  match found, v with
  | Some (JNum n), VersionNumber m => (n =? m)%Z
  | Some (JStr s), VersionString t => String.eqb s t
  | _, _ => false
  end.

(** [!j] for a parsed value or [undefined]. *)
Definition falsy (j : option json) : bool :=
  match j with
  | None | Some JNull | Some (JBool false) => true
  | Some (JNum n) => (n =? 0)%Z
  | Some (JStr s) => String.eqb s ""
  | Some _ => false
  end.

(** [[path, hash] = item]: an array gives its first two elements, a string
    its first two code points, nothing else can be iterated. *)
Definition destructure (item : json) : result (option json * option json) :=
  match item with
  | JArr items => Ok (nth_error items 0, nth_error items 1)
  | JStr s =>
      match Utf8.uncons s with
      | None => Ok (None, None)
      | Some (first, rest) =>
          Ok (Some (JStr first), option_map (fun p => JStr (fst p)) (Utf8.uncons rest))
      end
  | _ => Raise TypeError
  end.

(** [f[0]], which the loader reads as a string. For a string [f] this is
    its first code unit, taken here to be its first code point. *)
Definition first_string (item : json) : string :=
  match item with
  | JArr (JStr path :: _) => path
  | JStr s => match Utf8.uncons s with Some (first, _) => first | None => "" end
  | _ => ""
  end.

(** [files.map((f) => f[0])] *)
Definition paths_of (files : json) : list string :=
  match files with
  | JArr items => map first_string items
  | _ => []
  end.

Record Resolved := {
  config : value;
  files : list string;
}.

(** What [write] stores: the version stamp with the payload spread over it. *)
Definition stored (v : version) (data : Json.object) : Json.object :=
  Json.spread [("version", version_json v)] data.

(** What [jsonCache(path, version)] returns. *)
Record Cache := {
  read : M (option json);
  write : Json.object -> M unit;
}.

Definition try_catch {A} (body : M A) (handler : error -> M A) : M A :=
  fun w =>
    match body w with
    | (Raise e, w') => handler e w'
    | done => done
    end.

(** The records of a dependency set, as the cache file holds them. *)
Definition records_json (records : list (string * string)) : json :=
  JArr (map (fun r => JArr [JStr (fst r); JStr (snd r)]) records).

(** The text a file is read as, if it is a regular file. *)
Definition text_at (disk : gmap string Fs.node) (path : string) : option string :=
  match disk !! path with
  | Some (Fs.File bytes) => Some (Utf8.decode bytes)
  | _ => None
  end.

Section Loader.

Context `{Runtime}.

(** A string is hashed by its UTF-8 bytes, which is what stands for it
    here, a Buffer by its bytes. *)
Definition getHash (c : content) : string :=
  match c with
  | Text s => digest s
  | Buffer bytes => digest bytes
  end.

Definition readMaybeFileSync (path : string) : M (option string) :=
  try_catch
    (do text <- readFileSync_utf8 path; ret (Some text))
    (fun err =>
       match err with
       | SystemError Fs.ENOENT _ => ret None
       | _ => throw err
       end).

(** [!("NO_COLOR" in process.env || process.argv.includes("--no-color"))] *)
Definition useColors : bool :=
  negb (bool_decide (is_Some (env !! "NO_COLOR"))
        || existsb (String.eqb "--no-color") argv).

Definition logEsbuildErrors (result : BuildResult) : M unit :=
  if negb (length (errors result) =? 0)%nat then
    console_log
      (Text.join_with (String Text.newline "")
         (formatMessagesSync (errors result) "error" useColors))
  else if negb (length (warnings result) =? 0)%nat then
    console_log
      (Text.join_with (String Text.newline "")
         (formatMessagesSync (warnings result) "warning" useColors))
  else ret tt.

Definition jsonCache (path : string) (v : version) : Cache := {|
  read :=
    do text <- readMaybeFileSync path;
    match text with
    | None => ret None
    | Some text =>
        if String.eqb text "" then ret None
        else match JSON_parse text with
             | None => throw SyntaxError
             | Some json =>
                 do found <- lift (member json "version");
                 if negb (strict_equal found v) then ret None
                 else ret (Some (without "version" json))
             end
    end;
  write := fun data =>
    writeFileSync path (Json.stringify (JObj (stored v data)));
|}.

(** The path handed to [readMaybeFileSync] when it is not known to be a
    string: a number is taken for a file descriptor, and none is open for
    reading; anything else is refused. Neither failure is [ENOENT]. *)
Definition readMaybeFileSync_any (path : option json) : M (option string) :=
  match path with
  | Some (JStr p) => readMaybeFileSync p
  | Some (JNum fd) => throw (SystemError Fs.EBADF (pretty fd))
  | _ => throw TypeError
  end.

(** The callback of [files.some]: is this record stale? *)
Definition stale (item : json) : M bool :=
  do ' (path, hash) <- lift (destructure item);
  do text <- readMaybeFileSync_any path;
  match text with
  | None => ret true
  | Some text =>
      if String.eqb text "" then ret true
      else ret (negb (match hash with
                      | Some (JStr h) => String.eqb (getHash (Text text)) h
                      | _ => false
                      end))
  end.

(** [items.some(f)] stops at the first [true]. *)
Fixpoint some (f : json -> M bool) (items : list json) : M bool :=
  match items with
  | [] => ret false
  | item :: rest =>
      do found <- f item;
      if found then ret true else some f rest
  end.

(** [items.map(f)] for an [f] that may throw. *)
Fixpoint map_M {A B} (f : A -> M B) (l : list A) : M (list B) :=
  match l with
  | [] => ret []
  | x :: rest =>
      do y <- f x;
      do ys <- map_M f rest;
      ret (y :: ys)
  end.

(** [files.some(...)] on whatever the cache held under [files]. *)
Definition some_stale (cached : json) : M bool :=
  match cached with
  | JArr items => some stale items
  | _ => throw TypeError
  end.

Definition externalize_deps : Plugin := {|
  plugin_name := "externalize-deps";
  onResolve := fun path =>
    if negb (Text.startsWith path ".") then Some true else None;
|}.

Definition build_options (entryPoint output : string) : BuildOptions := {|
  entryPoints := [entryPoint];
  outfile := output;
  metafile := true;
  bundle := true;
  format := "esm";
  target := "node16";
  platform := "node";
  plugins := [externalize_deps];
|}.

Definition marker : string :=
  "{ " +:+ Text.quoted "type" +:+ ": " +:+ Text.quoted "module" +:+ " }".

Definition missing_export (entryPoint : string) : string :=
  entryPoint +:+ " doesn't have a " +:+ Text.quoted "config" +:+ " export".

(** Lines 46 to 52: what follows a build that returned. *)
Definition record_build (cache : Cache) (cacheDir : string) (result : BuildResult)
  : M json :=
  run logEsbuildErrors result;
  do files <-
    map_M (fun path =>
             do bytes <- readFileSync path;
             ret (JArr [JStr path; JStr (getHash (Buffer bytes))]))
          (metafile_inputs result);
  run write cache [("files", JArr files)];
  run writeFileSync (join cacheDir "package.json") marker;
  ret (JArr files).

(** The branch taken when there is no usable cache: lines 27 to 52. *)
Definition rebuild (cache : Cache) (entryPoint cacheDir output : string)
  : M json :=
  do result <- run_build (build_options entryPoint output);
  record_build cache cacheDir result.

(** Lines 55 to 68: load the artifact and read its [config] export. *)
Definition load (entryPoint output : string) (files : json)
  : M (option Resolved) :=
  let path := join cwd output in
  do t <- Date_now;
  do module <- run_import (path +:+ "?t=" +:+ pretty t);
  let exported := Js.get module "config" in
  if negb (truthy exported) then throw (Error (missing_export entryPoint))
  else
    do config <-
      match exported with
      | VFunction f => lift (do_call f)
      | _ => ret exported
      end;
    ret (Some {| config := config; files := paths_of files |}).

Definition entryPoint (name : string) : string := name +:+ ".config.ts".

Definition cacheDir (name : string) : string := "node_modules/." +:+ name.

Definition output (name : string) : string := join (cacheDir name) "config.js".

Definition cache (name : string) : Cache :=
  jsonCache (join (cacheDir name) "config-hashes.json") (VersionNumber 4).

(** Lines 11 to 53: [None] when there is no entry file, otherwise the
    records to go on with, those of the cache or those of a new build. *)
Definition prepare (name : string) : M (option json) :=
  do found <- existsSync (entryPoint name);
  if negb found then ret None
  else
    do payload <- read (cache name);
    do cached <-
      match payload with
      | None => ret None
      | Some p => lift (member p "files")
      end;
    do files <-
      match cached with
      | Some held =>
          if falsy cached
          then rebuild (cache name) (entryPoint name) (cacheDir name) (output name)
          else
            do invalid <- some_stale held;
            if invalid
            then rebuild (cache name) (entryPoint name) (cacheDir name) (output name)
            else ret held
      | None =>
          rebuild (cache name) (entryPoint name) (cacheDir name) (output name)
      end;
    ret (Some files).

Definition loadConfig (name : string) : M (option Resolved) :=
  do prepared <- prepare name;
  match prepared with
  | None => ret None
  | Some files => load (entryPoint name) (output name) files
  end.

(** The specifier the artifact is loaded by. *)
Definition specifier (name : string) (t : Z) : string :=
  join cwd (output name) +:+ "?t=" +:+ pretty t.

Definition cache_path (name : string) : string :=
  join (cacheDir name) "config-hashes.json".

Definition marker_path (name : string) : string :=
  join (cacheDir name) "package.json".

(** [cache.read()?.files]: what the cache holds under [files], if it can be
    read. *)
Definition cached (name : string) (w : World) : result (option json) :=
  match fst (read (cache name) w) with
  | Raise e => Raise e
  | Ok None => Ok None
  | Ok (Some payload) => member payload "files"
  end.

(** The branch that compiles, up to the records it goes on with. *)
Definition rebuilt (name : string) : M (option json) :=
  do files <- rebuild (cache name) (entryPoint name) (cacheDir name) (output name);
  ret (Some files).

(** The world after the compiler was invoked and left the files [disk']. *)
Definition compiled (name : string) (w : World) (disk' : gmap string Fs.node)
  : World :=
  {| disk := disk'; now := now w;
     events := events w ++ [Compile (build_options (entryPoint name) (output name))] |}.

(** A record is fresh when its file is still a file and the fingerprint of
    its text is the stored one. *)
Definition fresh (disk : gmap string Fs.node) (record : string * string) : bool :=
  match text_at disk (fst record) with
  | Some text => String.eqb (getHash (Text text)) (snd record)
  | None => false
  end.

(** The file of a record is there and empty. *)
Definition blank (disk : gmap string Fs.node) (record : string * string) : bool :=
  match text_at disk (fst record) with
  | Some text => String.eqb text ""
  | None => false
  end.

(** The records of the given input files: each with the fingerprint of its
    bytes, or the error of the first file that cannot be read. *)
Fixpoint fingerprints (disk : gmap string Fs.node) (inputs : list string)
  : result (list (string * string)) :=
  match inputs with
  | [] => Ok []
  | path :: rest =>
      match Fs.readFileSync disk path with
      | inl code => Raise (SystemError code path)
      | inr bytes =>
          match fingerprints disk rest with
          | Ok records => Ok ((path, getHash (Buffer bytes)) :: records)
          | Raise e => Raise e
          end
      end
  end.

(** The text of the cache file for a dependency set. *)
Definition cache_text (records : list (string * string)) : string :=
  Json.stringify (JObj (stored (VersionNumber 4) [("files", records_json records)])).

(** The world after the artifact was asked for. *)
Definition imported (name : string) (w : World) : World :=
  {| disk := disk w; now := now w;
     events := events w ++ [Import (specifier name (now w))] |}.

End Loader.

(** ** What a call did *)

Definition is_compile (e : event) : bool :=
  match e with
  | Compile _ => true
  | _ => false
  end.

(** How often the compiler was invoked. *)
Definition compilations (es : list event) : nat :=
  length (List.filter is_compile es).

(** A computation that only adds to the record of events. *)
Definition grows {A} (m : M A) : Prop :=
  forall w, exists es, events (snd (m w)) = (events w ++ es)%list.

(** What was recorded between two worlds. *)
Definition since (before later : World) : list event :=
  drop (length (events before)) (events later).

(** The files written, in order. *)
Definition written (es : list event) : list string :=
  flat_map (fun e => match e with WriteFile path _ => [path] | _ => [] end) es.

(** ** A runtime to run the loader on *)

Module Node.

(** A reader for JSON texts whose numbers are integers. *)
Module Parse.

Definition is_space (c : ascii) : bool :=
  let n := N_of_ascii c in
  (n =? 32)%N || (n =? 9)%N || (n =? 10)%N || (n =? 13)%N.

Fixpoint skip (s : string) : string :=
  match s with
  | String c rest => if is_space c then skip rest else s
  | EmptyString => s
  end.

Definition keyword (word : string) (v : json) (s : string)
  : option (json * string) :=
  if String.prefix word s
  then Some (v, substring (String.length word) (String.length s - String.length word) s)
  else None.

Fixpoint digits (acc : Z) (s : string) : Z * string :=
  match s with
  | String c rest =>
      if Json.is_digit c
      then digits (10 * acc + (Z.of_N (N_of_ascii c) - 48))%Z rest
      else (acc, s)
  | EmptyString => (acc, s)
  end.

(** An integer: no leading zero, no fraction, no exponent. *)
Definition number (s : string) : option (json * string) :=
  let '(negative, body) :=
    match s with
    | String "-" rest => (true, rest)
    | _ => (false, s)
    end in
  match body with
  | String c rest =>
      if Json.is_digit c then
        let '(n, rest') := digits 0 body in
        let leading_zero :=
          Ascii.eqb c "0" &&
          match rest with
          | String d _ => Json.is_digit d
          | EmptyString => false
          end in
        let more :=
          match rest' with
          | String d _ => Ascii.eqb d "." || Ascii.eqb d "e" || Ascii.eqb d "E"
          | EmptyString => false
          end in
        if leading_zero || more then None
        else Some (JNum (if negative then - n else n)%Z, rest')
      else None
  | EmptyString => None
  end.

Definition hex_value (c : ascii) : option N :=
  let n := N_of_ascii c in
  if (48 <=? n)%N && (n <=? 57)%N then Some (n - 48)%N
  else if (97 <=? n)%N && (n <=? 102)%N then Some (n - 87)%N
  else if (65 <=? n)%N && (n <=? 70)%N then Some (n - 55)%N
  else None.

(** The UTF-8 bytes of a code point of the basic plane. *)
Definition encode (cp : N) : string :=
  if (cp <? 128)%N then String (ascii_of_N cp) ""
  else if (cp <? 2048)%N then
    String (ascii_of_N (192 + cp / 64))
      (String (ascii_of_N (128 + cp mod 64)) "")
  else
    String (ascii_of_N (224 + cp / 4096))
      (String (ascii_of_N (128 + (cp / 64) mod 64))
         (String (ascii_of_N (128 + cp mod 64)) "")).

(** The inside of a string literal, up to its closing quote. *)
Fixpoint chars (fuel : nat) (s : string) : option (string * string) :=
  match fuel, s with
  | S fuel', String c rest =>
      let n := N_of_ascii c in
      if (n =? 34)%N then Some ("", rest)
      else if (n <? 32)%N then None
      else if (n =? 92)%N then
        match rest with
        | String e rest' =>
            let simple (b : N) :=
              option_map (fun p => (String (ascii_of_N b) (fst p), snd p))
                         (chars fuel' rest') in
            let m := N_of_ascii e in
            if (m =? 34)%N then simple 34%N
            else if (m =? 92)%N then simple 92%N
            else if (m =? 47)%N then simple 47%N
            else if (m =? 98)%N then simple 8%N
            else if (m =? 102)%N then simple 12%N
            else if (m =? 110)%N then simple 10%N
            else if (m =? 114)%N then simple 13%N
            else if (m =? 116)%N then simple 9%N
            else if (m =? 117)%N then
              match rest' with
              | String h1 (String h2 (String h3 (String h4 rest''))) =>
                  match hex_value h1, hex_value h2, hex_value h3, hex_value h4 with
                  | Some a, Some b, Some c', Some d =>
                      option_map
                        (fun p => (encode (4096 * a + 256 * b + 16 * c' + d)%N
                                   +:+ fst p, snd p))
                        (chars fuel' rest'')
                  | _, _, _, _ => None
                  end
              | _ => None
              end
            else None
        | EmptyString => None
        end
      else option_map (fun p => (String c (fst p), snd p)) (chars fuel' rest)
  | _, _ => None
  end.

Fixpoint value (fuel : nat) (s : string) : option (json * string) :=
  match fuel with
  | O => None
  | S fuel' =>
      match skip s with
      | EmptyString => None
      | String c rest as s' =>
          let n := N_of_ascii c in
          if (n =? 110)%N then keyword "null" JNull s'
          else if (n =? 116)%N then keyword "true" (JBool true) s'
          else if (n =? 102)%N then keyword "false" (JBool false) s'
          else if (n =? 34)%N then
            option_map (fun p => (JStr (fst p), snd p))
                       (chars (String.length rest) rest)
          else if (n =? 91)%N then
            match skip rest with
            | String "]" rest' => Some (JArr [], rest')
            | _ => option_map (fun p => (JArr (fst p), snd p))
                              (elements fuel' rest)
            end
          else if (n =? 123)%N then
            match skip rest with
            | String "}" rest' => Some (JObj [], rest')
            | _ => option_map (fun p => (JObj (fst p), snd p))
                              (members fuel' [] rest)
            end
          else number s'
      end
  end

with elements (fuel : nat) (s : string) : option (list json * string) :=
  match fuel with
  | O => None
  | S fuel' =>
      match value fuel' s with
      | None => None
      | Some (v, rest) =>
          match skip rest with
          | String "]" rest' => Some ([v], rest')
          | String "," rest' =>
              option_map (fun p => (v :: fst p, snd p)) (elements fuel' rest')
          | _ => None
          end
      end
  end

with members (fuel : nat) (acc : Json.object) (s : string)
  : option (Json.object * string) :=
  match fuel with
  | O => None
  | S fuel' =>
      match skip s with
      | String c rest =>
          if (N_of_ascii c =? 34)%N then
            match chars (String.length rest) rest with
            | None => None
            | Some (key, rest1) =>
                match skip rest1 with
                | String ":" rest2 =>
                    match value fuel' rest2 with
                    | None => None
                    | Some (v, rest3) =>
                        let acc' := Json.set key v acc in
                        match skip rest3 with
                        | String "}" rest4 => Some (acc', rest4)
                        | String "," rest4 => members fuel' acc' rest4
                        | _ => None
                        end
                    end
                | _ => None
                end
            end
          else None
      | EmptyString => None
      end
  end.

(** The whole text must be one value, white space apart. *)
Definition parse (text : string) : option json :=
  match value (2 * String.length text + 2) text with
  | Some (v, rest) => if String.eqb (skip rest) "" then Some v else None
  | None => None
  end.

End Parse.

(** [join(a, b)] for two relative paths already in normal form. *)
Definition join_paths (a b : string) : string :=
  if String.eqb a "" then b else a +:+ "/" +:+ b.

Definition before_query (specifier : string) : string :=
  match index 0 "?" specifier with
  | Some i => substring 0 i specifier
  | None => specifier
  end.

(** A build that succeeds: it makes the directory of the artifact, writes
    the artifact and reports the inputs it read and the warnings it has. *)
Definition build_ok (inputs : list string) (warns : list Message)
    (disk : gmap string Fs.node) (options : BuildOptions)
  : result BuildResult * gmap string Fs.node :=
  let dir := Fs.dirname (outfile options) in
  match Fs.mkdir_p (String.length dir) disk dir with
  | inl code => (Raise (SystemError code dir), disk)
  | inr disk' =>
      (Ok {| errors := []; warnings := warns; metafile_inputs := inputs |},
       <[outfile options := Fs.File "// bundle"]> disk')
  end.

(** A build that fails: it throws and writes nothing. *)
Definition build_failed (disk : gmap string Fs.node) (options : BuildOptions)
  : result BuildResult * gmap string Fs.node :=
  (Raise (Thrown "Build failed with 1 error"), disk).

(** A compiler stands for esbuild only as long as the directory of the
    artifact is there when it returns. *)
Definition checked
    (compiler : gmap string Fs.node -> BuildOptions
                -> result BuildResult * gmap string Fs.node)
    (disk : gmap string Fs.node) (options : BuildOptions)
  : result BuildResult * gmap string Fs.node :=
  match compiler disk options with
  | (Ok result, disk') =>
      if Fs.directory disk' (Fs.dirname (outfile options))
      then (Ok result, disk')
      else (Raise (SystemError Fs.ENOENT (outfile options)), disk')
  | failed => failed
  end.

(** Loading gives the exports [exports] when the artifact is there. *)
Definition import_exports (exports : module) (disk : gmap string Fs.node)
    (specifier : string) : result module :=
  if Fs.existsSync disk (before_query specifier) then Ok exports
  else Raise (Thrown "ERR_MODULE_NOT_FOUND").

(** SHA-1, the reader above, the current directory as the empty prefix. *)
Program Definition runtime
    (compiler : gmap string Fs.node -> BuildOptions
                -> result BuildResult * gmap string Fs.node)
    (exports : module) : Runtime := {|
  digest := Sha1.hexdigest;
  JSON_parse := Parse.parse;
  join := join_paths;
  cwd := "";
  env := ∅;
  argv := ["node"; "cli.js"];
  formatMessagesSync := fun messages kind color =>
    map (fun m => kind +:+ ": " +:+ m) messages;
  build := checked compiler;
  import_module := import_exports exports;
|}.
Next Obligation.
  intros compiler exports files options result files'. unfold checked.
  destruct (compiler files options) as [[r|e] disk']; cbn beta iota;
    [|discriminate].
  destruct (Fs.directory disk' (Fs.dirname (outfile options))) eqn:Hdir;
    [|discriminate].
  intros Heq. injection Heq as _ <-. exact Hdir.
Qed.
Next Obligation.
  intros _ _ dir a b Ha Hb.
  assert (Hplain : forall name, Fs.plain name = true -> Fs.dirname name = "").
  { intros name Hname. unfold Fs.plain in Hname.
    destruct (Text.contains "/" name) eqn:Hslash; [discriminate |].
    clear Hname. induction name as [|c name IH]; [reflexivity |].
    cbn [Text.contains Fs.dirname] in Hslash |- *.
    apply orb_false_iff in Hslash as [_ Hslash]. now rewrite Hslash. }
  assert (Hunder : forall name, Fs.plain name = true ->
            forall d, Fs.dirname (d +:+ "/" +:+ name) = d).
  { intros name Hname.
    assert (Hslash : forall d, Text.contains "/" (d +:+ "/" +:+ name) = true).
    { induction d as [|c d IH]; [reflexivity |].
      change (String c d +:+ "/" +:+ name) with (String c (d +:+ "/" +:+ name)).
      cbn [Text.contains]. rewrite IH. apply orb_true_r. }
    assert (Hlast : Text.contains "/" name = false).
    { unfold Fs.plain in Hname. now destruct (Text.contains "/" name). }
    induction d as [|c d IH].
    - change ("" +:+ "/" +:+ name) with (String "/" name).
      cbn [Fs.dirname]. now rewrite Hlast.
    - change (String c d +:+ "/" +:+ name) with (String c (d +:+ "/" +:+ name)).
      cbn [Fs.dirname]. now rewrite Hslash, IH. }
  unfold join_paths. destruct (String.eqb dir "").
  - now rewrite !Hplain.
  - now rewrite !Hunder.
Qed.

Definition world (disk : gmap string Fs.node) : World :=
  {| disk := disk; now := 1700000000000; events := [] |}.

(** What [build_ok] leaves of a disk without a cache directory. *)
Definition built (disk : gmap string Fs.node) : gmap string Fs.node :=
  <[ "node_modules/.app/config.js" := Fs.File "// bundle" ]>
    (<[ "node_modules/.app" := Fs.Dir ]> (<[ "node_modules" := Fs.Dir ]> disk)).

(** A project with one configuration file. *)
Definition project : gmap string Fs.node :=
  {[ "app.config.ts" := Fs.File "export const config = { port: 3000 }" ]}.

(** The same with a second source file, which is empty. *)
Definition project_with_empty : gmap string Fs.node :=
  <[ "empty.ts" := Fs.File "" ]> project.

(** The same with a second source file that has something in it. *)
Definition project_with_helper : gmap string Fs.node :=
  <[ "helper.ts" := Fs.File "export const port = 3000" ]> project.

(** The same with a second source file saved in Latin-1: the byte E9 of its
    comment is not UTF-8. *)
Definition project_with_latin1 : gmap string Fs.node :=
  <[ "legacy.ts" := Fs.File ("// caf" +:+ String (ascii_of_N 233) "") ]> project.

Definition port : value := VObject [("port", VNumber 3000)].

Definition exports_plain : module := {[ "config" := port ]}.

(** [export const config = async () => ({ port: 3000 })] *)
Definition exports_async : module :=
  {[ "config" := VFunction (inr (VPromise (inr port))) ]}.

(** [export default { port: 3000 }], and no [config]. *)
Definition exports_default : module := {[ "default" := port ]}.

(** [export const config = 0] *)
Definition exports_zero : module := {[ "config" := VNumber 0 ]}.

(** Runtimes for the projects above. *)
Definition healthy (exports : module) : Runtime :=
  runtime (build_ok ["app.config.ts"] []) exports.

Definition broken : Runtime := runtime build_failed exports_plain.

Definition with_empty : Runtime :=
  runtime (build_ok ["app.config.ts"; "empty.ts"] []) exports_plain.

Definition with_helper : Runtime :=
  runtime (build_ok ["app.config.ts"; "helper.ts"] []) exports_plain.

Definition with_latin1 : Runtime :=
  runtime (build_ok ["app.config.ts"; "legacy.ts"] []) exports_plain.

(** The world in which the cache has been examined, and the records found. *)
Definition examined (rt : Runtime) (w : World) : World :=
  snd (@prepare rt "app" w).

Definition found (rt : Runtime) (w : World) : json :=
  match fst (@prepare rt "app" w) with
  | Ok (Some files) => files
  | _ => JNull
  end.

(** A cache file that holds an opening brace and nothing else. *)
Definition torn_cache : World :=
  world {[ "config-hashes.json" := Fs.File "{" ]}.

Definition empty_cache : World :=
  world {[ "config-hashes.json" := Fs.File "" ]}.

(** The project with its helper after a first call, and the same once the
    helper has been deleted. *)
Definition helped : gmap string Fs.node :=
  disk (snd (@loadConfig with_helper "app" (world project_with_helper))).

Definition helper_records : list (string * string) :=
  [("app.config.ts", Sha1.hexdigest "export const config = { port: 3000 }");
   ("helper.ts", Sha1.hexdigest "export const port = 3000")].

(** The project with its empty file after a first call. *)
Definition emptied : gmap string Fs.node :=
  disk (snd (@loadConfig with_empty "app" (world project_with_empty))).

Definition empty_records : list (string * string) :=
  [("app.config.ts", Sha1.hexdigest "export const config = { port: 3000 }");
   ("empty.ts", Sha1.hexdigest "")].

(** A cache file as [write] leaves it for an empty dependency set. *)
Definition stamped_cache : World :=
  world {[ "config-hashes.json" :=
             Fs.File (Json.stringify
                        (JObj (stored (VersionNumber 4) [("files", JArr [])]))) ]}.

(** The project with a cache record whose [files] is a string. *)
Definition odd_cache : gmap string Fs.node :=
  <[ "node_modules/.app/config-hashes.json" :=
       Fs.File (Json.stringify (JObj [("version", JNum 4); ("files", JStr "x")])) ]>
    project.

(** The project after a first call, with a directory where the helper was. *)
Definition helper_is_directory : gmap string Fs.node :=
  <[ "helper.ts" := Fs.Dir ]> helped.

(** A compiler that reports an input that is not on the disk. *)
Definition with_ghost : Runtime :=
  runtime (build_ok ["app.config.ts"; "ghost.ts"] []) exports_plain.

(** A compiler that returns with a warning. *)
Definition with_warning : Runtime :=
  runtime (build_ok ["app.config.ts"] ["unused import"]) exports_plain.

(** [export const config = () => { throw "no port" }] *)
Definition exports_throwing : module :=
  {[ "config" := VFunction (inl (Thrown "no port")) ]}.

(** [export const config = () => 0] *)
Definition exports_lazy_zero : module :=
  {[ "config" := VFunction (inr (VNumber 0)) ]}.

End Node.

(** ** More to observe *)

(** What [logEsbuildErrors] prints for a build result. *)
Definition printed `{Runtime} (result : BuildResult) : list event :=
  if negb (length (errors result) =? 0)%nat then
    [ConsoleLog (Text.join_with (String Text.newline "")
                   (formatMessagesSync (errors result) "error" useColors))]
  else if negb (length (warnings result) =? 0)%nat then
    [ConsoleLog (Text.join_with (String Text.newline "")
                   (formatMessagesSync (warnings result) "warning" useColors))]
  else [].

(** The world [w] with other files and more events. *)
Definition moved (w : World) (disk' : gmap string Fs.node) (es : list event)
  : World :=
  {| disk := disk'; now := now w; events := (events w ++ es)%list |}.

(** How often a module was asked for. *)
Definition imports (es : list event) : nat :=
  length (List.filter (fun e => match e with Import _ => true | _ => false end) es).

(** ** The packaging script *)

(** The script that builds the published package.
    The [package.json] it imports is not part of what is modelled and comes
    in as the parsed object [pkg]; [buildSync], [execSync] and
    [writeFileSync] come in as what they throw, if anything. *)
Module Bundle.

Record Options := {
  bundle : bool;
  entryPoints : list string;
  outdir : string;
  format : string;
  platform : string;
  target : string;
  external : list string;
}.





(** The properties [JSON.stringify] keeps of an object literal: those whose
    value is not [undefined]. *)
Fixpoint defined (props : list (string * option json)) : Json.object :=
  match props with
  | [] => []
  | (k, Some v) :: rest => (k, v) :: defined rest
  | (_, None) :: rest => defined rest
  end.

(** The object literal of lines 22 to 32. *)
Definition manifest_literal (pkg : Json.object) : list (string * option json) :=
  [("name", Json.lookup "name" pkg);
   ("description", Json.lookup "description" pkg);
   ("type", Some (JStr "module"));
   ("version", Json.lookup "version" pkg);
   ("author", Json.lookup "author" pkg);
   ("license", Json.lookup "license" pkg);
   ("main", Some (JStr "index.js"));
   ("repository", Some (JStr "ArnaudBarre/config-loader"));
   ("dependencies", Json.lookup "dependencies" pkg)].

Definition manifest (pkg : Json.object) : Json.object :=
  defined (manifest_literal pkg).

(** [JSON.stringify(manifest, null, 2)] *)
Definition manifest_text (pkg : Json.object) : string :=
  Json.serialize "  " "" (JObj (manifest pkg)).

Definition options (external : list string) : Options := {|
  bundle := true;
  entryPoints := ["src/index.ts"];
  outdir := "dist";
  format := "esm";
  platform := "node";
  target := "node16";
  external := external;
|}.



End Bundle.

(** Whether a text is made of the digits [0] to [9] and the letters [a] to
    [f] only. *)
Fixpoint lowercase_hex (s : string) : bool :=
  match s with
  | EmptyString => true
  | String c rest =>
      let n := N_of_ascii c in
      (((48 <=? n) && (n <=? 57)) || ((97 <=? n) && (n <=? 102)))%N
      && lowercase_hex rest
  end.

(** * Properties *)

(** ** Text and values *)

Lemma prefix_append (a b : string) : String.prefix a (a +:+ b) = true.
Proof.
  induction a as [|c a IH]; simpl.
  - now destruct b.
  - destruct (ascii_dec c c); [exact IH | congruence].
Qed.

Lemma append_assoc (a b c : string) : (a +:+ b) +:+ c = a +:+ (b +:+ c).
Proof.
  induction a as [|x a IH]; [reflexivity |].
  change (String x ((a +:+ b) +:+ c) = String x (a +:+ (b +:+ c))).
  now rewrite IH.
Qed.

Lemma includes_unfold (needle s : string) :
  Text.includes needle s =
  String.prefix needle s ||
  match s with
  | EmptyString => false
  | String _ s' => Text.includes needle s'
  end.
Proof. destruct s; reflexivity. Qed.

Lemma includes_here (needle rest : string) :
  Text.includes needle (needle +:+ rest) = true.
Proof. rewrite includes_unfold, prefix_append. reflexivity. Qed.

Lemma includes_later (needle before s : string) :
  Text.includes needle s = true -> Text.includes needle (before +:+ s) = true.
Proof.
  intros Hs. induction before as [|c before IH]; simpl; [exact Hs |].
  rewrite IH. apply orb_true_r.
Qed.

(** The message of the missing-export error names the entry file and the
    export. *)
Lemma missing_export_names (entry : string) :
  Text.includes entry (missing_export entry) = true /\
  Text.includes (Text.quoted "config") (missing_export entry) = true.
Proof.
  unfold missing_export. split.
  - apply includes_here.
  - apply includes_later, includes_later, includes_here.
Qed.

Lemma await_size : forall v r : value, await v = Ok r -> size r <= size v.
Proof.
  fix IH 1. intros v r Hr.
  destruct v as [| | | | | | |[e|inner]|call]; simpl in Hr;
    try (injection Hr as <-; lia); try discriminate.
  apply IH in Hr. simpl. lia.
Qed.

(** What [await] gives is never a promise. *)
Lemma await_settled : forall v r : value,
  await v = Ok r -> forall settled, r <> VPromise settled.
Proof.
  fix IH 1. intros v r Hr.
  destruct v as [| | | | | | |[e|inner]|call]; simpl in Hr;
    try (injection Hr as <-; discriminate); try discriminate.
  exact (IH inner r Hr).
Qed.

(** What awaiting a call gives is not the function that was called. *)
Lemma do_call_not_itself (f : error + value) (r : value) :
  do_call f = Ok r -> r <> VFunction f.
Proof.
  destruct f as [e|v]; simpl; [discriminate |].
  intros Hr ->. apply await_size in Hr. simpl in Hr. lia.
Qed.

(** ** Loading the artifact *)

Section Loading.

Context `{Runtime}.

Lemma load_unfold (name : string) (files : json) (w : World) :
  load (entryPoint name) (output name) files w =
  match import_module (disk w) (specifier name (now w)) with
  | Raise e => (Raise e, imported name w)
  | Ok m =>
      let exported := Js.get m "config" in
      if truthy exported then
        match exported with
        | VFunction f =>
            match do_call f with
            | Ok v => (Ok (Some {| config := v; files := paths_of files |}),
                       imported name w)
            | Raise e => (Raise e, imported name w)
            end
        | _ => (Ok (Some {| config := exported; files := paths_of files |}),
                imported name w)
        end
      else (Raise (Error (missing_export (entryPoint name))), imported name w)
  end.
Proof.
  unfold load, bind, Date_now, run_import, record, lift, ret, throw, specifier,
    imported. simpl.
  destruct (import_module _ _) as [m|e]; [|reflexivity].
  destruct (truthy (Js.get m "config")) eqn:Ht; simpl; [|reflexivity].
  destruct (Js.get m "config"); reflexivity.
Qed.

Lemma loadConfig_prepared (name : string) (w w1 : World) (files : json) :
  prepare name w = (Ok (Some files), w1) ->
  loadConfig name w = load (entryPoint name) (output name) files w1.
Proof. intros Hp. unfold loadConfig, bind. rewrite Hp. reflexivity. Qed.

(** A falsy [config], an export that is not there included, ends the call
    with the missing-export error. *)
Lemma load_falsy (name : string) (files : json) (w : World) (m : module) :
  import_module (disk w) (specifier name (now w)) = Ok m ->
  truthy (Js.get m "config") = false ->
  load (entryPoint name) (output name) files w =
  (Raise (Error (missing_export (entryPoint name))), imported name w).
Proof. intros Hm Hf. rewrite load_unfold, Hm. simpl. rewrite Hf. reflexivity. Qed.

(** C7. When the call has come as far as loading the artifact and the
    module it gets has no [config] export, it fails with an [Error] whose
    message is the entry file name followed by: doesn't have a "config"
    export. The message thus contains both the name of the entry file and
    the quoted name of the export. *)
Theorem missing_export_is_fatal (name : string) (w w1 : World) (files : json)
    (m : module) :
  prepare name w = (Ok (Some files), w1) ->
  import_module (disk w1) (specifier name (now w1)) = Ok m ->
  m !! "config" = None ->
  loadConfig name w =
    (Raise (Error (name +:+ ".config.ts doesn't have a " +:+ Text.quoted "config"
                   +:+ " export")), imported name w1) /\
  Text.includes (name +:+ ".config.ts") (missing_export (entryPoint name)) = true /\
  Text.includes (Text.quoted "config") (missing_export (entryPoint name)) = true.
Proof.
  intros Hp Hm Hnone. split; [|apply missing_export_names].
  rewrite (loadConfig_prepared _ _ _ _ Hp).
  rewrite (load_falsy name files w1 m Hm).
  - unfold missing_export, entryPoint.
    rewrite append_assoc. reflexivity.
  - unfold Js.get. rewrite Hnone. reflexivity.
Qed.

(** C10. A [config] export that is there but falsy is treated like one that
    is missing: the call fails with the error of the missing export, the one
    whose message names the entry file and the export, and returns no result
    that could carry the falsy value. *)
Theorem falsy_export_is_fatal (name : string) (w w1 : World) (files : json)
    (m : module) (exported : value) :
  prepare name w = (Ok (Some files), w1) ->
  import_module (disk w1) (specifier name (now w1)) = Ok m ->
  m !! "config" = Some exported ->
  truthy exported = false ->
  loadConfig name w =
    (Raise (Error (missing_export (entryPoint name))), imported name w1) /\
  (forall (r : option Resolved) (w2 : World), loadConfig name w <> (Ok r, w2)).
Proof.
  intros Hp Hm Hsome Hf.
  assert (Hload : loadConfig name w =
    (Raise (Error (missing_export (entryPoint name))), imported name w1)).
  { rewrite (loadConfig_prepared _ _ _ _ Hp).
    apply (load_falsy name files w1 m Hm).
    unfold Js.get. rewrite Hsome. exact Hf. }
  split; [exact Hload | intros r w2; rewrite Hload; discriminate].
Qed.

(** C6, amended. When the [config] export is a function that returns a
    promise, the call invokes it, awaits the promise and returns what the
    promise was fulfilled with: not the function, and no promise. When the
    export is not a function and is truthy, it is returned as it is. (A
    falsy export is not returned: the call fails as for a missing one.) *)
Theorem config_is_resolved (name : string) (w w1 : World) (files : json)
    (m : module) (exported : value) :
  prepare name w = (Ok (Some files), w1) ->
  import_module (disk w1) (specifier name (now w1)) = Ok m ->
  m !! "config" = Some exported ->
  (forall (settled : error + value) (v : value),
      exported = VFunction (inr (VPromise settled)) ->
      await (VPromise settled) = Ok v ->
      loadConfig name w =
        (Ok (Some {| config := v; files := paths_of files |}), imported name w1) /\
      v <> exported /\
      (forall p, v <> VPromise p)) /\
  (is_function exported = false ->
   truthy exported = true ->
   loadConfig name w =
     (Ok (Some {| config := exported; files := paths_of files |}),
      imported name w1)).
Proof.
  intros Hp Hm Hsome.
  rewrite (loadConfig_prepared _ _ _ _ Hp), load_unfold, Hm.
  unfold Js.get. rewrite Hsome. simpl. split.
  - intros settled v -> Hv.
    pose proof (await_settled (VPromise settled) v Hv) as Hsettled.
    pose proof (do_call_not_itself (inr (VPromise settled)) v Hv) as Hother.
    simpl. rewrite Hv. auto.
  - intros Hfun Ht. rewrite Ht.
    destruct exported; try reflexivity. discriminate.
Qed.

(** C8. Without an entry file the call returns nothing and leaves the world
    as it found it: no file is written, neither cache record nor artifact
    nor marker, and no capability is invoked. *)
Theorem absent_entry_is_no_result (name : string) (w : World) :
  Fs.existsSync (disk w) (name +:+ ".config.ts") = false ->
  loadConfig name w = (Ok None, w) /\
  disk (snd (loadConfig name w)) = disk w /\
  events (snd (loadConfig name w)) = events w.
Proof.
  intros Habsent.
  assert (Hrun : loadConfig name w = (Ok None, w)).
  { unfold loadConfig, prepare, bind, existsSync, entryPoint.
    rewrite Habsent. reflexivity. }
  rewrite Hrun. auto.
Qed.

End Loading.

(** ** JSON texts *)



Lemma serialize_object (gap indent : string) (props : list (string * json)) :
  Json.serialize gap indent (JObj props) =
  Json.wrap gap (indent +:+ gap) indent "{" "}"
    (map (fun kv => Json.quote (fst kv) +:+ Json.colon gap
                    +:+ Json.serialize gap (indent +:+ gap) (snd kv)) props).
Proof.
  simpl. f_equal. induction props as [|[k x] props IH]; simpl; [reflexivity |].
  now rewrite <- IH.
Qed.












(** ** Objects *)








(** ** Writing files *)

Lemma dirname_shorter (path : string) :
  path <> "" -> String.length (Fs.dirname path) < String.length path.
Proof.
  induction path as [|c path IH]; [congruence |]. intros _.
  cbn [Fs.dirname]. destruct (Text.contains "/" path) eqn:Hslash.
  - assert (Hpath : path <> "") by (destruct path; [discriminate | congruence]).
    specialize (IH Hpath). simpl. lia.
  - simpl. lia.
Qed.

Lemma dirname_not_itself (path : string) : Fs.dirname path = path -> path = "".
Proof.
  intros Heq. destruct (decide (path = "")) as [->|Hne]; [reflexivity |].
  pose proof (dirname_shorter path Hne) as Hlt. rewrite Heq in Hlt. lia.
Qed.

Lemma missing_none (fuel : nat) (files : gmap string Fs.node) (dir : string) :
  Fs.missing fuel files dir = None <-> Fs.directory files dir = true.
Proof.
  unfold Fs.directory. destruct fuel as [|fuel]; cbn [Fs.missing];
    destruct (String.eqb dir ""); try tauto;
    destruct (files !! dir) as [[bytes|]|];
    try (split; [discriminate | discriminate]);
    try tauto.
  destruct (Fs.missing fuel files (Fs.dirname dir)) as [[]|];
    split; discriminate.
Qed.


Lemma refusal_none (files : gmap string Fs.node) (path : string) :
  Fs.directory files (Fs.dirname path) = true ->
  files !! path <> Some Fs.Dir ->
  Fs.refusal files path = None.
Proof.
  intros Hdir Hpath. unfold Fs.refusal.
  apply (missing_none (String.length path)) in Hdir. rewrite Hdir.
  destruct (files !! path) as [[bytes|]|]; congruence.
Qed.

(** A file written into a directory leaves the directory where it is. *)
Lemma directory_kept (files : gmap string Fs.node) (path data : string) :
  Fs.directory files (Fs.dirname path) = true ->
  Fs.directory (<[path := Fs.File data]> files) (Fs.dirname path) = true.
Proof.
  unfold Fs.directory. destruct (String.eqb (Fs.dirname path) "") eqn:Hcwd;
    [reflexivity |].
  intros Hdir. rewrite lookup_insert_ne; [exact Hdir |].
  intros Heq. symmetry in Heq. apply dirname_not_itself in Heq. subst path.
  discriminate.
Qed.

Lemma writeFileSync_unfold (path data : string) (w : World) :
  writeFileSync path data w =
  match Fs.refusal (disk w) path with
  | Some code => (Raise (SystemError code path), w)
  | None =>
      (Ok tt, {| disk := <[path := Fs.File data]> (disk w); now := now w;
                 events := events w ++ [WriteFile path data] |})
  end.
Proof.
  unfold writeFileSync, Fs.writeFileSync.
  now destruct (Fs.refusal (disk w) path).
Qed.

(** ** The cache *)

Section CacheFile.

Context `{Runtime}.

Lemma readMaybeFileSync_unfold (path : string) (w : World) :
  readMaybeFileSync path w =
  match disk w !! path with
  | Some (Fs.File bytes) => (Ok (Some (Utf8.decode bytes)), w)
  | Some Fs.Dir => (Raise (SystemError Fs.EISDIR path), w)
  | None => (Ok None, w)
  end.
Proof.
  unfold readMaybeFileSync, try_catch, readFileSync_utf8, bind, readFileSync,
    Fs.readFileSync, ret, throw.
  destruct (disk w !! path) as [[bytes|]|]; reflexivity.
Qed.

Lemma read_unfold (path : string) (v : version) (w : World) :
  read (jsonCache path v) w =
  match disk w !! path with
  | Some (Fs.File bytes) =>
      let text := Utf8.decode bytes in
      if String.eqb text "" then (Ok None, w)
      else match JSON_parse text with
           | None => (Raise SyntaxError, w)
           | Some parsed =>
               match member parsed "version" with
               | Raise e => (Raise e, w)
               | Ok found =>
                   if strict_equal found v
                   then (Ok (Some (without "version" parsed)), w)
                   else (Ok None, w)
               end
           end
  | Some Fs.Dir => (Raise (SystemError Fs.EISDIR path), w)
  | None => (Ok None, w)
  end.
Proof.
  simpl. unfold bind at 1. rewrite readMaybeFileSync_unfold.
  destruct (disk w !! path) as [[bytes|]|]; try reflexivity.
  simpl. destruct (String.eqb (Utf8.decode bytes) ""); [reflexivity |].
  destruct (JSON_parse (Utf8.decode bytes)) as [parsed|]; [|reflexivity].
  unfold bind, lift. destruct (member parsed "version") as [found|e]; [|reflexivity].
  now destruct (strict_equal found v).
Qed.

(** Reading never changes the world. *)
Lemma read_pure (path : string) (v : version) (w : World) :
  snd (read (jsonCache path v) w) = w.
Proof.
  rewrite read_unfold.
  destruct (disk w !! path) as [[bytes|]|]; try reflexivity. simpl.
  destruct (String.eqb (Utf8.decode bytes) ""); [reflexivity |].
  destruct (JSON_parse (Utf8.decode bytes)) as [parsed|]; [|reflexivity].
  destruct (member parsed "version") as [found|e]; [|reflexivity].
  now destruct (strict_equal found v).
Qed.

(** C4, amended. A cache file that is there, is not empty and cannot be
    parsed as JSON makes [read] throw the parser's SyntaxError; only the
    empty file, which cannot be parsed either, is read as absent. *)
Theorem unparsable_cache_raises (path : string) (v : version) (w : World)
    (bytes : string) :
  disk w !! path = Some (Fs.File bytes) ->
  JSON_parse (Utf8.decode bytes) = None ->
  (Utf8.decode bytes <> "" -> read (jsonCache path v) w = (Raise SyntaxError, w)) /\
  (Utf8.decode bytes = "" -> read (jsonCache path v) w = (Ok None, w)).
Proof.
  intros Hfile Hparse. rewrite read_unfold, Hfile. simpl. rewrite Hparse. split.
  - intros Hne. apply String.eqb_neq in Hne. now rewrite Hne.
  - intros ->. reflexivity.
Qed.


End CacheFile.

(** ** Deciding whether to compile *)

Section Deciding.

Context `{Runtime}.

Lemma readMaybeFileSync_any_pure (path : option json) (w : World) :
  snd (readMaybeFileSync_any path w) = w.
Proof.
  destruct path as [[| | |p| |]|]; try reflexivity.
  simpl. rewrite readMaybeFileSync_unfold.
  destruct (disk w !! p) as [[bytes|]|]; reflexivity.
Qed.

(** Looking at a record changes nothing. *)
Lemma stale_pure (item : json) (w : World) : snd (stale item w) = w.
Proof.
  unfold stale, bind, lift.
  destruct (destructure item) as [[path hash]|e]; [|reflexivity].
  pose proof (readMaybeFileSync_any_pure path w) as Hpure.
  destruct (readMaybeFileSync_any path w) as [[[text|]|e] w']; simpl in Hpure;
    subst w'; try reflexivity.
  now destruct (String.eqb text "").
Qed.

Lemma some_pure (items : list json) (w : World) : snd (some stale items w) = w.
Proof.
  induction items as [|item items IH]; [reflexivity |].
  simpl. unfold bind.
  pose proof (stale_pure item w) as Hpure.
  destruct (stale item w) as [[[]|e] w']; simpl in Hpure; subst w'; auto.
Qed.

Lemma some_stale_pure (held : json) (w : World) : snd (some_stale held w) = w.
Proof. destruct held; try reflexivity. apply some_pure. Qed.

(** The decision, spelled out: nothing without an entry file; otherwise the
    cache is read and its records are checked, which changes nothing, and
    the compiler runs when there are no records or one of them is stale. *)
Lemma prepare_unfold (name : string) (w : World) :
  prepare name w =
  if Fs.existsSync (disk w) (entryPoint name) then
    match cached name w with
    | Raise e => (Raise e, w)
    | Ok None => rebuilt name w
    | Ok (Some held) =>
        if falsy (Some held) then rebuilt name w
        else match fst (some_stale held w) with
             | Raise e => (Raise e, w)
             | Ok true => rebuilt name w
             | Ok false => (Ok (Some held), w)
             end
    end
  else (Ok None, w).
Proof.
  unfold prepare, cached, rebuilt, bind, existsSync, lift, ret.
  destruct (Fs.existsSync (disk w) (entryPoint name)); [|reflexivity].
  cbn [negb].
  pose proof (read_pure (join (cacheDir name) "config-hashes.json")
                (VersionNumber 4) w) as Hpure.
  fold (cache name) in Hpure.
  destruct (read (cache name) w) as [[payload|e] w']; cbn [fst snd] in *;
    subst w'; [|reflexivity].
  destruct payload as [payload|]; [|reflexivity].
  destruct (member payload "files") as [[held|]|e]; try reflexivity.
  destruct (falsy (Some held)); [reflexivity |].
  pose proof (some_stale_pure held w) as Hs.
  destruct (some_stale held w) as [[[]|e] w']; cbn [fst snd] in *; subst w';
    reflexivity.
Qed.

(** What the compiling branch does when the compiler throws: nothing more. *)
Lemma rebuilt_failed (name : string) (w : World) (e : error)
    (disk' : gmap string Fs.node) :
  build (disk w) (build_options (entryPoint name) (output name)) = (Raise e, disk') ->
  rebuilt name w = (Raise e, compiled name w disk').
Proof.
  intros Hbuild. unfold rebuilt, rebuild, bind, run_build. rewrite Hbuild.
  reflexivity.
Qed.

End Deciding.

(** ** A compiler that fails *)

Section Failing.

Context `{Runtime}.

Lemma surjective_pairing_load (name : string) (files : json) (w : World) :
  load (entryPoint name) (output name) files w =
  (fst (load (entryPoint name) (output name) files w), imported name w).
Proof.
  rewrite load_unfold.
  destruct (import_module _ _) as [m|e]; [|reflexivity]. simpl.
  destruct (truthy (Js.get m "config")); [|reflexivity].
  destruct (Js.get m "config"); try reflexivity.
  now destruct (do_call call).
Qed.

(** Loading asks for the artifact and does nothing else to the world. *)
Lemma load_world (name : string) (files : json) (w : World) :
  snd (load (entryPoint name) (output name) files w) = imported name w.
Proof.
  rewrite load_unfold.
  destruct (import_module _ _) as [m|e]; [|reflexivity]. simpl.
  destruct (truthy (Js.get m "config")); [|reflexivity].
  destruct (Js.get m "config"); try reflexivity.
  now destruct (do_call call).
Qed.

(** With a compiler that throws there are three ways a call can go. *)
Lemma loadConfig_failed_build (name : string) (w : World) (e : error)
    (disk' : gmap string Fs.node) :
  build (disk w) (build_options (entryPoint name) (output name)) = (Raise e, disk') ->
  (exists r, loadConfig name w = (r, w)) \/
  (exists r, loadConfig name w = (r, imported name w)) \/
  loadConfig name w = (Raise e, compiled name w disk').
Proof.
  intros Hbuild.
  pose proof (rebuilt_failed name w e disk' Hbuild) as Hr.
  pose proof (prepare_unfold name w) as Hp.
  assert (Hfailed : prepare name w = rebuilt name w ->
                    loadConfig name w = (Raise e, compiled name w disk')).
  { intros Hp'. unfold loadConfig, bind. now rewrite Hp', Hr. }
  assert (Hstop : forall e0, prepare name w = (Raise e0, w) ->
                  exists r, loadConfig name w = (r, w)).
  { intros e0 Hp'. exists (Raise e0). unfold loadConfig, bind. now rewrite Hp'. }
  destruct (Fs.existsSync (disk w) (entryPoint name)).
  - destruct (cached name w) as [[held|]|e0]; [| auto | eauto].
    destruct (falsy (Some held)); [auto |].
    destruct (fst (some_stale held w)) as [[]|e0]; [auto | | eauto].
    right. left. rewrite (loadConfig_prepared _ _ _ _ Hp).
    eexists. apply surjective_pairing_load.
  - left. exists (Ok None). unfold loadConfig, bind. now rewrite Hp.
Qed.

(** C3. Take a world in which the compiler, if asked, throws. Then the call
    writes no file at all, so no cache record, whole or partial. Either the
    compiler is not asked and the files stay as they were, or it is asked
    once, the call fails with the compiler's error, and the world is left
    as the compiler left it. If the compiler did not touch the cache file,
    the cache file is what it was before the call. *)
Theorem failed_build_writes_nothing (name : string) (w : World) (e : error)
    (disk' : gmap string Fs.node) :
  build (disk w) (build_options (entryPoint name) (output name)) = (Raise e, disk') ->
  (exists es : list event,
     events (snd (loadConfig name w)) = (events w ++ es)%list /\
     written es = [] /\
     ((compilations es = 0 /\ disk (snd (loadConfig name w)) = disk w) \/
      (compilations es = 1 /\
       loadConfig name w = (Raise e, compiled name w disk')))) /\
  (disk' !! cache_path name = disk w !! cache_path name ->
   disk (snd (loadConfig name w)) !! cache_path name = disk w !! cache_path name).
Proof.
  intros Hbuild.
  destruct (loadConfig_failed_build name w e disk' Hbuild)
    as [[r Hrun]|[[r Hrun]|Hrun]]; rewrite Hrun; simpl; (split; [|auto]).
  - exists []. rewrite app_nil_r. auto.
  - exists [Import (specifier name (now w))]. auto.
  - exists [Compile (build_options (entryPoint name) (output name))]. auto.
Qed.

End Failing.

(** ** Checking the records *)

Section Checking.

Context `{Runtime}.

(** The check of one well-formed record. *)
Lemma stale_record (record : string * string) (w : World) :
  stale (JArr [JStr (fst record); JStr (snd record)]) w =
  match disk w !! fst record with
  | Some (Fs.File bytes) =>
      (Ok (blank (disk w) record || negb (fresh (disk w) record)), w)
  | Some Fs.Dir => (Raise (SystemError Fs.EISDIR (fst record)), w)
  | None => (Ok true, w)
  end.
Proof.
  destruct record as [path hash].
  unfold stale, bind, lift, blank, fresh, text_at. simpl.
  rewrite readMaybeFileSync_unfold.
  destruct (disk w !! path) as [[bytes|]|]; try reflexivity.
  destruct (String.eqb (Utf8.decode bytes) ""); reflexivity.
Qed.

(** The check of a whole dependency set none of whose paths has become a
    directory: it finds a stale record exactly when some record is not fresh
    or has an empty file. *)
Lemma some_stale_records (records : list (string * string)) (w : World) :
  (forall r, In r records -> disk w !! fst r <> Some Fs.Dir) ->
  some_stale (records_json records) w =
  (Ok (existsb (fun r => blank (disk w) r || negb (fresh (disk w) r)) records), w).
Proof.
  unfold records_json. simpl. induction records as [|r records IH]; intros Hdir.
  - reflexivity.
  - simpl. unfold bind. rewrite stale_record.
    assert (Hr : disk w !! fst r <> Some Fs.Dir) by (apply Hdir; now left).
    assert (IH' := IH (fun r' Hin => Hdir r' (or_intror Hin))).
    destruct (disk w !! fst r) as [[bytes|]|] eqn:E.
    + destruct (blank (disk w) r || negb (fresh (disk w) r)); [reflexivity |].
      exact IH'.
    + congruence.
    + unfold blank, fresh, text_at. rewrite E. reflexivity.
Qed.

Lemma falsy_records (records : list (string * string)) :
  falsy (Some (records_json records)) = false.
Proof. reflexivity. Qed.

(** With an entry file and a well-formed cache record none of whose paths
    has become a directory, the compiler is left alone exactly when every
    record is fresh and none of the files is empty; otherwise the call
    compiles. *)
Lemma prepare_records (name : string) (w : World)
    (records : list (string * string)) :
  Fs.existsSync (disk w) (entryPoint name) = true ->
  cached name w = Ok (Some (records_json records)) ->
  (forall r, In r records -> disk w !! fst r <> Some Fs.Dir) ->
  prepare name w =
  if forallb (fun r => fresh (disk w) r && negb (blank (disk w) r)) records
  then (Ok (Some (records_json records)), w)
  else rebuilt name w.
Proof.
  intros Hentry Hcached Hdir.
  rewrite prepare_unfold, Hentry, Hcached, falsy_records.
  rewrite (some_stale_records records w Hdir). simpl fst.
  assert (Hflip :
    existsb (fun r => blank (disk w) r || negb (fresh (disk w) r)) records =
    negb (forallb (fun r => fresh (disk w) r && negb (blank (disk w) r)) records)).
  { clear Hentry Hcached Hdir.
    induction records as [|r records IH]; [reflexivity |]. simpl.
    rewrite IH. destruct (fresh (disk w) r), (blank (disk w) r); reflexivity. }
  rewrite Hflip.
  now destruct (forallb _ records).
Qed.

End Checking.

(** ** Events only accumulate *)

Section Growing.

Context `{Runtime}.

Lemma grows_ret {A} (a : A) : grows (ret a).
Proof. intros w. exists []. simpl. now rewrite app_nil_r. Qed.

Lemma grows_throw {A} (e : error) : grows (@throw A e).
Proof. intros w. exists []. simpl. now rewrite app_nil_r. Qed.

Lemma grows_lift {A} (r : result A) : grows (lift r).
Proof. intros w. exists []. simpl. now rewrite app_nil_r. Qed.

Lemma grows_bind {A B} (m : M A) (k : A -> M B) :
  grows m -> (forall a, grows (k a)) -> grows (bind m k).
Proof.
  intros Hm Hk w. unfold bind. destruct (Hm w) as [es Hes].
  destruct (m w) as [[a|e] w1]; simpl in Hes.
  - destruct (Hk a w1) as [es' Hes']. exists (es ++ es')%list.
    now rewrite Hes', Hes, app_assoc.
  - now exists es.
Qed.

Lemma grows_record (e : event) : grows (record e).
Proof. intros w. now exists [e]. Qed.

Lemma grows_readFileSync (path : string) : grows (readFileSync path).
Proof.
  intros w. exists []. unfold readFileSync.
  destruct (Fs.readFileSync (disk w) path); simpl; now rewrite app_nil_r.
Qed.

Lemma grows_writeFileSync (path data : string) : grows (writeFileSync path data).
Proof.
  intros w. unfold writeFileSync.
  destruct (Fs.writeFileSync (disk w) path data); simpl.
  - exists []. now rewrite app_nil_r.
  - now exists [WriteFile path data].
Qed.

Lemma grows_map_M {A B} (f : A -> M B) (l : list A) :
  (forall a, grows (f a)) -> grows (map_M f l).
Proof.
  intros Hf. induction l as [|x l IH]; simpl.
  - apply grows_ret.
  - apply grows_bind; [apply Hf |]. intros y.
    apply grows_bind; [exact IH |]. intros ys. apply grows_ret.
Qed.

Lemma grows_logEsbuildErrors (result : BuildResult) :
  grows (logEsbuildErrors result).
Proof.
  unfold logEsbuildErrors.
  destruct (negb (length (errors result) =? 0)%nat); [apply grows_record |].
  destruct (negb (length (warnings result) =? 0)%nat); [apply grows_record |].
  apply grows_ret.
Qed.

Lemma grows_load (name : string) (files : json) :
  grows (load (entryPoint name) (output name) files).
Proof. intros w. rewrite load_world. now eexists. Qed.

Lemma grows_record_build (name : string) (result : BuildResult) :
  grows (record_build (cache name) (cacheDir name) result).
Proof.
  unfold record_build.
  apply grows_bind; [apply grows_logEsbuildErrors | intros _].
  apply grows_bind.
  { apply grows_map_M. intros path.
    apply grows_bind; [apply grows_readFileSync | intros; apply grows_ret]. }
  intros files.
  apply grows_bind; [apply grows_writeFileSync | intros _].
  apply grows_bind; [apply grows_writeFileSync | intros _].
  apply grows_ret.
Qed.

(** The compiling branch starts by invoking the compiler. *)
Lemma rebuilt_compiles (name : string) (w : World) :
  exists es,
    events (snd (rebuilt name w)) =
    (events w ++ Compile (build_options (entryPoint name) (output name)) :: es)%list.
Proof.
  unfold rebuilt, rebuild. unfold bind at 1. unfold bind at 1. unfold run_build.
  destruct (build (disk w) _) as [[result|e] disk'].
  - destruct (grows_record_build name result
                {| disk := disk'; now := now w;
                   events := (events w ++
                     [Compile (build_options (entryPoint name) (output name))])%list |})
      as [es Hes].
    exists es. simpl in Hes. rewrite <- app_assoc in Hes. simpl in Hes.
    destruct (record_build _ _ _ _) as [[files|e] w1]; exact Hes.
  - now exists [].
Qed.

(** A call that takes the compiling branch has the compiler's invocation as
    its first event. *)
Lemma loadConfig_compiles (name : string) (w : World) :
  prepare name w = rebuilt name w ->
  exists es,
    events (snd (loadConfig name w)) =
    (events w ++ Compile (build_options (entryPoint name) (output name)) :: es)%list.
Proof.
  intros Hp. destruct (rebuilt_compiles name w) as [es Hes].
  unfold loadConfig, bind. rewrite Hp.
  destruct (rebuilt name w) as [[[files|]|e] w1]; simpl in Hes.
  - rewrite load_world. simpl. rewrite Hes. rewrite <- app_assoc. simpl.
    now eexists.
  - now exists es.
  - now exists es.
Qed.

End Growing.

(** ** Deleted dependencies *)

Section Deleted.

Context `{Runtime}.



End Deleted.

(** ** When the cache is used *)

Section Deciding_by_records.

Context `{Runtime}.

Lemma since_app (w w' : World) (es : list event) :
  events w' = (events w ++ es)%list -> since w w' = es.
Proof. intros Hes. unfold since. rewrite Hes. apply drop_app_length. Qed.

(** With an entry file and a well-formed cache record none of whose paths
    has become a directory, a call invokes the compiler unless every record
    is fresh and has a file that is not empty. *)
Lemma cache_decides (name : string) (w : World)
    (records : list (string * string)) :
  Fs.existsSync (disk w) (entryPoint name) = true ->
  cached name w = Ok (Some (records_json records)) ->
  (forall r, In r records -> disk w !! fst r <> Some Fs.Dir) ->
  compilations (since w (snd (loadConfig name w))) = 0 <->
  (forall r, In r records ->
     fresh (disk w) r = true /\ blank (disk w) r = false).
Proof.
  intros Hentry Hcached Hdir.
  pose proof (prepare_records name w records Hentry Hcached Hdir) as Hp.
  destruct (forallb _ records) eqn:Hall.
  - rewrite (loadConfig_prepared _ _ _ _ Hp), load_world.
    rewrite (since_app w (imported name w) [Import (specifier name (now w))])
      by reflexivity.
    split; [intros _ | reflexivity].
    intros r Hin. rewrite forallb_forall in Hall.
    specialize (Hall r Hin). apply andb_true_iff in Hall as [Hf Hb].
    split; [exact Hf | now apply negb_true_iff].
  - destruct (loadConfig_compiles name w Hp) as [es Hes].
    rewrite (since_app _ _ _ Hes). split; [discriminate |].
    intros Hall'. exfalso.
    assert (Htrue : forallb (fun r => fresh (disk w) r && negb (blank (disk w) r))
                            records = true).
    { apply forallb_forall. intros r Hin. destruct (Hall' r Hin) as [-> ->].
      reflexivity. }
    congruence.
Qed.

(** X25. The same in the words of the code. With an entry file and a
    well-formed cache record, if reading none of the recorded paths throws,
    the call leaves the compiler alone exactly when every record passes the
    check of lines 22 to 25: [readMaybeFileSync] gives a text for its path,
    the text is not empty, and [getHash] of that text, which is the file
    decoded as UTF-8, is the recorded hash. *)
Theorem records_decide (name : string) (w : World)
    (records : list (string * string)) :
  Fs.existsSync (disk w) (entryPoint name) = true ->
  cached name w = Ok (Some (records_json records)) ->
  (forall r, In r records ->
     exists content, readMaybeFileSync (fst r) w = (Ok content, w)) ->
  compilations (since w (snd (loadConfig name w))) = 0 <->
  (forall r, In r records ->
     exists text,
       readMaybeFileSync (fst r) w = (Ok (Some text), w) /\
       text <> "" /\
       getHash (Text text) = snd r).
Proof.
  intros Hentry Hcached Hreads.
  assert (Hdir : forall r, In r records -> disk w !! fst r <> Some Fs.Dir).
  { intros r Hin Hr. destruct (Hreads r Hin) as [content Hread].
    rewrite readMaybeFileSync_unfold, Hr in Hread. discriminate. }
  rewrite (cache_decides name w records Hentry Hcached Hdir).
  assert (Hpass : forall r,
    (fresh (disk w) r = true /\ blank (disk w) r = false) <->
    (exists text,
       readMaybeFileSync (fst r) w = (Ok (Some text), w) /\
       text <> "" /\ getHash (Text text) = snd r)).
  { intros r. rewrite readMaybeFileSync_unfold. unfold fresh, blank, text_at.
    destruct (disk w !! fst r) as [[bytes|]|].
    - rewrite String.eqb_eq, String.eqb_neq. split.
      + intros [Hhash Hne]. exists (Utf8.decode bytes). auto.
      + intros (text & [= <-] & Hne & Hhash). auto.
    - split; [intros [? _]; discriminate | intros (? & ? & _); discriminate].
    - split; [intros [? _]; discriminate | intros (? & ? & _); discriminate]. }
  split; intros Hall r Hin; apply Hpass; now apply Hall.
Qed.

End Deciding_by_records.

(** ** After a build *)

Section After_build.

Context `{Runtime}.

(** The cache file, the marker and the artifact lie in one directory. *)
Lemma cache_marker_dirname (name : string) :
  Fs.dirname (cache_path name) = Fs.dirname (marker_path name).
Proof. now apply join_dirname. Qed.

(** When the compiler has returned, that directory is there. *)
Lemma built_directory (name : string) (w : World) (result : BuildResult)
    (disk' : gmap string Fs.node) :
  build (disk w) (build_options (entryPoint name) (output name)) = (Ok result, disk') ->
  Fs.directory disk' (Fs.dirname (cache_path name)) = true /\
  Fs.directory disk' (Fs.dirname (marker_path name)) = true.
Proof.
  intros Hbuild. apply build_outdir in Hbuild. cbn [outfile build_options] in Hbuild.
  unfold cache_path, marker_path, output in *.
  now rewrite (join_dirname (cacheDir name) "config-hashes.json" "config.js"),
    (join_dirname (cacheDir name) "package.json" "config.js").
Qed.

Lemma logEsbuildErrors_quiet (result : BuildResult) (w : World) :
  exists es,
    logEsbuildErrors result w =
    (Ok tt, {| disk := disk w; now := now w; events := (events w ++ es)%list |}).
Proof.
  unfold logEsbuildErrors.
  destruct (negb (length (errors result) =? 0)%nat); [now eexists |].
  destruct (negb (length (warnings result) =? 0)%nat); [now eexists |].
  exists []. unfold ret. rewrite app_nil_r. now destruct w.
Qed.

(** Fingerprinting the inputs reads files and changes nothing. *)
Lemma map_M_fingerprints (inputs : list string) (w : World) :
  map_M (fun path =>
           do bytes <- readFileSync path;
           ret (JArr [JStr path; JStr (getHash (Buffer bytes))])) inputs w =
  (match fingerprints (disk w) inputs with
   | Ok records =>
       Ok (map (fun r => JArr [JStr (fst r); JStr (snd r)]) records)
   | Raise e => Raise e
   end, w).
Proof.
  set (f := fun path : string =>
              do bytes <- readFileSync path;
              ret (JArr [JStr path; JStr (getHash (Buffer bytes))])).
  assert (Hf : forall path, f path w =
    match Fs.readFileSync (disk w) path with
    | inl code => (Raise (SystemError code path), w)
    | inr bytes => (Ok (JArr [JStr path; JStr (getHash (Buffer bytes))]), w)
    end).
  { intros path. unfold f, bind, readFileSync, ret.
    now destruct (Fs.readFileSync (disk w) path). }
  induction inputs as [|path inputs IH]; [reflexivity |].
  change (map_M f (path :: inputs) w) with
    (bind (f path) (fun y => bind (map_M f inputs) (fun ys => ret (y :: ys))) w).
  unfold bind at 1. rewrite Hf. simpl fingerprints.
  destruct (Fs.readFileSync (disk w) path) as [code|bytes]; [reflexivity |].
  unfold bind. rewrite IH.
  destruct (fingerprints (disk w) inputs); reflexivity.
Qed.

Lemma fingerprints_in (disk : gmap string Fs.node) (inputs : list string)
    (records : list (string * string)) :
  fingerprints disk inputs = Ok records ->
  forall p h, In (p, h) records ->
    exists bytes, disk !! p = Some (Fs.File bytes) /\ h = getHash (Buffer bytes).
Proof.
  revert records. induction inputs as [|path inputs IH]; intros records Hf p h Hin.
  - injection Hf as <-. destruct Hin.
  - simpl in Hf. unfold Fs.readFileSync in Hf.
    destruct (disk !! path) as [[bytes|]|] eqn:E; try discriminate.
    destruct (fingerprints disk inputs) as [rest|e]; [|discriminate].
    injection Hf as <-. destruct Hin as [Heq|Hin].
    + injection Heq as <- <-. eauto.
    + eapply IH; eauto.
Qed.

Lemma paths_of_records (records : list (string * string)) :
  paths_of (records_json records) = map fst records.
Proof.
  unfold records_json, paths_of. rewrite map_map. reflexivity.
Qed.

(** What a build that returns leads to: the cache file holds the records of
    the inputs, the marker is written, and these records are what the call
    goes on with. *)
Lemma rebuilt_ok (name : string) (w : World) (result : BuildResult)
    (disk' : gmap string Fs.node) (records : list (string * string)) :
  build (disk w) (build_options (entryPoint name) (output name)) = (Ok result, disk') ->
  fingerprints disk' (metafile_inputs result) = Ok records ->
  disk' !! cache_path name <> Some Fs.Dir ->
  disk' !! marker_path name <> Some Fs.Dir ->
  cache_path name <> marker_path name ->
  exists es,
    rebuilt name w =
    (Ok (Some (records_json records)),
     {| disk := <[marker_path name := Fs.File marker]>
                  (<[cache_path name := Fs.File (cache_text records)]> disk');
        now := now w;
        events := (events w ++ es)%list |}).
Proof.
  intros Hbuild Hprints Hcache Hmarker Hdistinct.
  destruct (built_directory name w result disk' Hbuild) as [Hdir1 Hdir2].
  unfold rebuilt, rebuild. unfold bind at 1. unfold bind at 1.
  unfold run_build. rewrite Hbuild.
  unfold record_build. unfold bind at 1.
  destruct (logEsbuildErrors_quiet result
              {| disk := disk'; now := now w;
                 events := (events w ++
                   [Compile (build_options (entryPoint name) (output name))])%list |})
    as [es' ->].
  unfold bind at 1. rewrite map_M_fingerprints. simpl disk. rewrite Hprints.
  unfold bind at 1.
  change (write (cache name) [("files", JArr (map (fun r => JArr [JStr (fst r); JStr (snd r)]) records))])
    with (writeFileSync (cache_path name) (cache_text records)).
  rewrite writeFileSync_unfold. cbn [disk now events].
  rewrite (refusal_none _ _ Hdir1 Hcache).
  unfold bind at 1. fold (marker_path name).
  rewrite writeFileSync_unfold. cbn [disk now events].
  rewrite refusal_none.
  - unfold ret. eexists. f_equal. f_equal. rewrite <- !app_assoc. reflexivity.
  - rewrite <- (cache_marker_dirname name). apply directory_kept.
    now rewrite (cache_marker_dirname name).
  - now rewrite lookup_insert_ne by exact Hdistinct.
Qed.

(** X26. No-op stability for dependencies that are texts and not empty.
    Let a call compile, the compiler returning with the inputs [records]; let the
    cache text read back as it was written; and let every input be a file
    that is not empty, is well-formed UTF-8 and is not one of the loader's
    own two files. Then a call in any world with the files the first call
    left does not invoke the compiler, and it returns the same list of
    files. *)
Theorem unchanged_files_are_not_recompiled (name : string) (w : World)
    (result : BuildResult) (disk' : gmap string Fs.node)
    (records : list (string * string)) :
  prepare name w = rebuilt name w ->
  build (disk w) (build_options (entryPoint name) (output name)) = (Ok result, disk') ->
  fingerprints disk' (metafile_inputs result) = Ok records ->
  disk' !! cache_path name <> Some Fs.Dir ->
  disk' !! marker_path name <> Some Fs.Dir ->
  cache_path name <> marker_path name ->
  Fs.existsSync disk' (entryPoint name) = true ->
  Utf8.decode (cache_text records) = cache_text records ->
  JSON_parse (cache_text records) =
    Some (JObj (stored (VersionNumber 4) [("files", records_json records)])) ->
  (forall p h, In (p, h) records ->
     p <> cache_path name /\ p <> marker_path name /\
     exists bytes, disk' !! p = Some (Fs.File bytes) /\
                   bytes <> "" /\ Utf8.decode bytes = bytes) ->
  forall w2 : World,
    disk w2 = disk (snd (loadConfig name w)) ->
    compilations (since w2 (snd (loadConfig name w2))) = 0 /\
    forall r1 r2 : Resolved,
      fst (loadConfig name w) = Ok (Some r1) ->
      fst (loadConfig name w2) = Ok (Some r2) ->
      files r2 = files r1.
Proof.
  intros Hfirst Hbuild Hprints Hcache Hmarker Hdistinct Hentry Hdecode Hparse
    Hinputs w2 Hdisk.
  destruct (rebuilt_ok name w result disk' records Hbuild Hprints Hcache
              Hmarker Hdistinct) as [es Hrebuilt].
  assert (Hfiles : fst (rebuilt name w) = Ok (Some (records_json records)))
    by now rewrite Hrebuilt.
  assert (Hleft : disk (snd (rebuilt name w)) =
    <[marker_path name := Fs.File marker]>
      (<[cache_path name := Fs.File (cache_text records)]> disk'))
    by now rewrite Hrebuilt.
  clear Hrebuilt.
  (* the files the first call left *)
  assert (Hdisk2 : disk w2 =
    <[marker_path name := Fs.File marker]>
      (<[cache_path name := Fs.File (cache_text records)]> disk')).
  { rewrite Hdisk. unfold loadConfig, bind. rewrite Hfirst.
    destruct (rebuilt name w) as [[[files1|]|e] w1]; simpl in *;
      try discriminate.
    rewrite load_world. exact Hleft. }
  (* the second call finds the records *)
  assert (Hentry2 : Fs.existsSync (disk w2) (entryPoint name) = true).
  { unfold Fs.existsSync in *. rewrite Hdisk2.
    destruct (decide (marker_path name = entryPoint name)) as [->|Hne1].
    { now rewrite lookup_insert_eq. }
    rewrite lookup_insert_ne by exact Hne1.
    destruct (decide (cache_path name = entryPoint name)) as [->|Hne2].
    { now rewrite lookup_insert_eq. }
    now rewrite lookup_insert_ne by exact Hne2. }
  assert (Hcached2 : cached name w2 = Ok (Some (records_json records))).
  { unfold cached, cache. fold (cache_path name). rewrite read_unfold, Hdisk2.
    rewrite lookup_insert_ne by (intros Heq; apply Hdistinct; now symmetry).
    rewrite lookup_insert_eq. cbv zeta. rewrite Hdecode, Hparse.
    reflexivity. }
  assert (Hsame : forall p, (exists h, In (p, h) records) ->
                  disk w2 !! p = disk' !! p).
  { intros p [h Hin]. destruct (Hinputs p h Hin) as (Hp1 & Hp2 & _).
    rewrite Hdisk2.
    rewrite lookup_insert_ne by (intros Heq; apply Hp2; now symmetry).
    now rewrite lookup_insert_ne by (intros Heq; apply Hp1; now symmetry). }
  assert (Hdir2 : forall r, In r records -> disk w2 !! fst r <> Some Fs.Dir).
  { intros [p h] Hin. simpl. rewrite (Hsame p) by eauto.
    destruct (Hinputs p h Hin) as (_ & _ & bytes & -> & _). discriminate. }
  assert (Hall : forallb (fun r => fresh (disk w2) r && negb (blank (disk w2) r))
                         records = true).
  { apply forallb_forall. intros [p h] Hin.
    destruct (Hinputs p h Hin) as (_ & _ & bytes & Hfile & Hne & Hutf).
    destruct (fingerprints_in _ _ _ Hprints p h Hin) as (bytes' & Hfile' & ->).
    rewrite Hfile in Hfile'. injection Hfile' as <-.
    unfold fresh, blank, text_at. simpl. rewrite (Hsame p) by eauto.
    rewrite Hfile, Hutf. simpl.
    rewrite String.eqb_refl. apply String.eqb_neq in Hne. now rewrite Hne. }
  pose proof (prepare_records name w2 records Hentry2 Hcached2 Hdir2) as Hp2.
  rewrite Hall in Hp2.
  rewrite (loadConfig_prepared _ _ _ _ Hp2). split.
  - rewrite load_world.
    now rewrite (since_app w2 (imported name w2)
                   [Import (specifier name (now w2))]).
  - intros r1 r2 Hr1 Hr2.
    assert (Hfiles2 : files r2 = map fst records).
    { rewrite load_unfold in Hr2. rewrite <- paths_of_records.
      destruct (import_module _ _) as [m|e]; [|discriminate]. simpl in Hr2.
      destruct (truthy (Js.get m "config")); [|discriminate].
      destruct (Js.get m "config"); try (injection Hr2 as <-; reflexivity).
      destruct (do_call call); [|discriminate]. now injection Hr2 as <-. }
    assert (Hfiles1 : files r1 = map fst records).
    { unfold loadConfig, bind in Hr1. rewrite Hfirst in Hr1.
      destruct (rebuilt name w) as [[[files1|]|e] w1]; simpl in Hfiles;
        try discriminate.
      injection Hfiles as ->.
      rewrite load_unfold in Hr1. rewrite <- paths_of_records.
      destruct (import_module _ _) as [m|e]; [|discriminate]. simpl in Hr1.
      destruct (truthy (Js.get m "config")); [|discriminate].
      destruct (Js.get m "config"); try (injection Hr1 as <-; reflexivity).
      destruct (do_call call); [|discriminate]. now injection Hr1 as <-. }
    congruence.
Qed.

End After_build.

(** * The loader at work *)

(** Nothing to load in an empty directory. *)
Lemma absent_entry_witness :
  Fs.existsSync (disk (Node.world ∅)) ("app" +:+ ".config.ts") = false /\
  @loadConfig (Node.healthy Node.exports_plain) "app" (Node.world ∅) =
    (Ok None, Node.world ∅).
Proof.
  split; [reflexivity |].
  apply (@absent_entry_is_no_result (Node.healthy Node.exports_plain) "app"
           (Node.world ∅)).
  reflexivity.
Defined.

(** A module that only has a default export. *)
Lemma missing_export_witness :
  let rt := Node.healthy Node.exports_default in
  let w := Node.world Node.project in
  @prepare rt "app" w = (Ok (Some (Node.found rt w)), Node.examined rt w) /\
  Node.exports_default !! "config" = None /\
  fst (@loadConfig rt "app" w) =
    Raise (Error ("app.config.ts doesn't have a " +:+ Text.quoted "config"
                  +:+ " export")).
Proof.
  intros rt w.
  assert (Hp : @prepare rt "app" w = (Ok (Some (Node.found rt w)), Node.examined rt w))
    by (vm_compute; reflexivity).
  split; [exact Hp | split; [reflexivity |]].
  destruct (@missing_export_is_fatal rt "app" w (Node.examined rt w) (Node.found rt w)
              Node.exports_default Hp) as [Hrun _];
    [vm_compute; reflexivity | reflexivity |].
  rewrite Hrun. reflexivity.
Defined.

(** A module whose [config] is the number zero. *)
Lemma falsy_export_witness :
  let rt := Node.healthy Node.exports_zero in
  let w := Node.world Node.project in
  @prepare rt "app" w = (Ok (Some (Node.found rt w)), Node.examined rt w) /\
  Node.exports_zero !! "config" = Some (VNumber 0) /\
  truthy (VNumber 0) = false /\
  fst (@loadConfig rt "app" w) =
    Raise (Error ("app.config.ts doesn't have a " +:+ Text.quoted "config"
                  +:+ " export")).
Proof.
  intros rt w.
  assert (Hp : @prepare rt "app" w = (Ok (Some (Node.found rt w)), Node.examined rt w))
    by (vm_compute; reflexivity).
  split; [exact Hp | split; [reflexivity | split; [reflexivity |]]].
  destruct (@falsy_export_is_fatal rt "app" w (Node.examined rt w) (Node.found rt w)
              Node.exports_zero (VNumber 0) Hp) as [Hrun _];
    [vm_compute; reflexivity | reflexivity | reflexivity |].
  rewrite Hrun. reflexivity.
Defined.

(** An asynchronous [config] is called and awaited; a plain object is
    handed over as it is. *)
Lemma config_is_resolved_witness :
  let w := Node.world Node.project in
  (let rt := Node.healthy Node.exports_async in
   @prepare rt "app" w = (Ok (Some (Node.found rt w)), Node.examined rt w) /\
   Node.exports_async !! "config" = Some (VFunction (inr (VPromise (inr Node.port)))) /\
   await (VPromise (inr Node.port)) = Ok Node.port /\
   fst (@loadConfig rt "app" w) =
     Ok (Some {| config := Node.port; files := ["app.config.ts"] |})) /\
  (let rt := Node.healthy Node.exports_plain in
   @prepare rt "app" w = (Ok (Some (Node.found rt w)), Node.examined rt w) /\
   Node.exports_plain !! "config" = Some Node.port /\
   is_function Node.port = false /\
   truthy Node.port = true /\
   fst (@loadConfig rt "app" w) =
     Ok (Some {| config := Node.port; files := ["app.config.ts"] |})).
Proof.
  intros w. split; intros rt.
  - assert (Hp : @prepare rt "app" w = (Ok (Some (Node.found rt w)), Node.examined rt w))
      by (vm_compute; reflexivity).
    repeat (split; [first [exact Hp | reflexivity] |]).
    destruct (@config_is_resolved rt "app" w (Node.examined rt w) (Node.found rt w)
                Node.exports_async (VFunction (inr (VPromise (inr Node.port)))) Hp)
      as [Hasync _];
      [vm_compute; reflexivity | reflexivity |].
    destruct (Hasync (inr Node.port) Node.port eq_refl eq_refl) as [Hrun _].
    rewrite Hrun. reflexivity.
  - assert (Hp : @prepare rt "app" w = (Ok (Some (Node.found rt w)), Node.examined rt w))
      by (vm_compute; reflexivity).
    repeat (split; [first [exact Hp | reflexivity] |]).
    destruct (@config_is_resolved rt "app" w (Node.examined rt w) (Node.found rt w)
                Node.exports_plain Node.port Hp) as [_ Hplain];
      [vm_compute; reflexivity | reflexivity |].
    rewrite (Hplain eq_refl eq_refl). reflexivity.
Defined.

(** C6 as it was stated does not hold: a plain export that is falsy is not
    returned. With [config] exported as the number zero the call throws. *)
Lemma plain_falsy_export_is_not_returned :
  ~ (forall (rt : Runtime) (name : string) (w w1 : World) (files : json)
            (m : module) (exported : value),
       @prepare rt name w = (Ok (Some files), w1) ->
       @import_module rt (disk w1) (@specifier rt name (now w1)) = Ok m ->
       m !! "config" = Some exported ->
       is_function exported = false ->
       @loadConfig rt name w =
         (Ok (Some {| config := exported; files := paths_of files |}),
          @imported rt name w1)).
Proof.
  intros claim.
  pose (rt := Node.healthy Node.exports_zero).
  pose (w := Node.world Node.project).
  assert (Hp : @prepare rt "app" w = (Ok (Some (Node.found rt w)), Node.examined rt w))
    by (vm_compute; reflexivity).
  specialize (claim rt "app" w (Node.examined rt w) (Node.found rt w) Node.exports_zero
                (VNumber 0) Hp).
  assert (Hrun : fst (@loadConfig rt "app" w) =
                 Raise (Error (@missing_export "app.config.ts")))
    by (vm_compute; reflexivity).
  rewrite claim in Hrun; [discriminate | vm_compute; reflexivity | reflexivity
                          | reflexivity].
Qed.

Lemma unparsable_cache_witness :
  let rt := Node.healthy Node.exports_plain in
  (disk Node.torn_cache !! "config-hashes.json" = Some (Fs.File "{") /\
   @JSON_parse rt (Utf8.decode "{") = None /\
   Utf8.decode "{" <> "" /\
   read (@jsonCache rt "config-hashes.json" (VersionNumber 4)) Node.torn_cache =
     (Raise SyntaxError, Node.torn_cache)) /\
  (disk Node.empty_cache !! "config-hashes.json" = Some (Fs.File "") /\
   @JSON_parse rt (Utf8.decode "") = None /\
   Utf8.decode "" = "" /\
   read (@jsonCache rt "config-hashes.json" (VersionNumber 4)) Node.empty_cache =
     (Ok None, Node.empty_cache)).
Proof.
  intros rt. split.
  - assert (Hne : Utf8.decode "{" <> "") by (vm_compute; discriminate).
    repeat (split; [first [exact Hne | reflexivity] |]).
    destruct (@unparsable_cache_raises rt "config-hashes.json" (VersionNumber 4)
                Node.torn_cache "{" eq_refl eq_refl) as [Hraise _].
    exact (Hraise Hne).
  - repeat (split; [reflexivity |]).
    destruct (@unparsable_cache_raises rt "config-hashes.json" (VersionNumber 4)
                Node.empty_cache "" eq_refl eq_refl) as [_ Habsent].
    exact (Habsent eq_refl).
Defined.

(** C4 as it was stated does not hold: reading the torn cache file throws
    instead of giving absent. *)
Lemma unparsable_cache_is_not_absent :
  ~ (forall (rt : Runtime) (path : string) (v : version) (w : World)
            (bytes : string),
       disk w !! path = Some (Fs.File bytes) ->
       @JSON_parse rt (Utf8.decode bytes) = None ->
       fst (read (@jsonCache rt path v) w) = Ok None).
Proof.
  intros claim.
  specialize (claim (Node.healthy Node.exports_plain) "config-hashes.json"
                (VersionNumber 4) Node.torn_cache "{" eq_refl eq_refl).
  vm_compute in claim. discriminate.
Qed.



(** A compiler that fails on the project. *)
Lemma failed_build_witness :
  let w := Node.world Node.project in
  @build Node.broken (disk w)
    (build_options (entryPoint "app") (@output Node.broken "app")) =
    (Raise (Thrown "Build failed with 1 error"), Node.project) /\
  @loadConfig Node.broken "app" w =
    (Raise (Thrown "Build failed with 1 error"),
     @compiled Node.broken "app" w Node.project) /\
  written (events (snd (@loadConfig Node.broken "app" w))) = [] /\
  disk (snd (@loadConfig Node.broken "app" w)) !! @cache_path Node.broken "app"
    = None.
Proof.
  intros w.
  assert (Hbuild : @build Node.broken (disk w)
    (build_options (entryPoint "app") (@output Node.broken "app")) =
    (Raise (Thrown "Build failed with 1 error"), Node.project)) by reflexivity.
  destruct (@failed_build_writes_nothing Node.broken "app" w _ _ Hbuild)
    as [(es & Hevents & Hwritten & [[Hnone _]|[_ Hrun]]) Hcache].
  - exfalso.
    assert (Hes : es = events (snd (@loadConfig Node.broken "app" w)))
      by (rewrite Hevents; reflexivity).
    subst es. vm_compute in Hnone. discriminate.
  - split; [exact Hbuild |]. split; [exact Hrun |]. split.
    + rewrite Hrun. reflexivity.
    + rewrite (Hcache eq_refl). reflexivity.
Defined.



(** The project with its helper: a second call finds everything as the
    first one left it. *)
Lemma unchanged_files_witness :
  let rt := Node.with_helper in
  let w := Node.world Node.project_with_helper in
  compilations (events (snd (@loadConfig rt "app" w))) = 1 /\
  compilations
    (since (Node.world Node.helped)
       (snd (@loadConfig rt "app" (Node.world Node.helped)))) = 0 /\
  forall r1 r2 : Resolved,
    fst (@loadConfig rt "app" w) = Ok (Some r1) ->
    fst (@loadConfig rt "app" (Node.world Node.helped)) = Ok (Some r2) ->
    files r2 = files r1.
Proof.
  intros rt w. split; [vm_compute; reflexivity |].
  pose (built := Node.built Node.project_with_helper).
  assert (Hinputs : forall p h, In (p, h) Node.helper_records ->
    p <> @cache_path rt "app" /\ p <> @marker_path rt "app" /\
    exists bytes,
      built !! p = Some (Fs.File bytes) /\
      bytes <> "" /\ Utf8.decode bytes = bytes).
  { intros p h [Heq|[Heq|[]]]; apply (f_equal fst) in Heq; cbn [fst] in Heq;
      subst p;
      (split; [vm_compute; discriminate |]);
      (split; [vm_compute; discriminate |]);
      [exists "export const config = { port: 3000 }"
      |exists "export const port = 3000"];
      (split; [vm_compute; reflexivity |]);
      (split; [discriminate | vm_compute; reflexivity]). }
  assert (H1 : @prepare rt "app" w = @rebuilt rt "app" w)
    by (vm_compute; reflexivity).
  assert (H2 : @build rt (disk w)
                 (build_options (entryPoint "app") (@output rt "app")) =
               (Ok {| errors := []; warnings := [];
                      metafile_inputs := ["app.config.ts"; "helper.ts"] |},
                built)) by reflexivity.
  assert (H3 : @fingerprints rt built ["app.config.ts"; "helper.ts"] =
               Ok Node.helper_records) by (vm_compute; reflexivity).
  assert (H4 : built !! @cache_path rt "app" <> Some Fs.Dir)
    by (vm_compute; discriminate).
  assert (H5 : built !! @marker_path rt "app" <> Some Fs.Dir)
    by (vm_compute; discriminate).
  assert (H6 : @cache_path rt "app" <> @marker_path rt "app")
    by (vm_compute; discriminate).
  assert (H7 : Fs.existsSync built (entryPoint "app") = true)
    by (vm_compute; reflexivity).
  assert (H8 : Utf8.decode (cache_text Node.helper_records) =
               cache_text Node.helper_records) by (vm_compute; reflexivity).
  assert (H9 : @JSON_parse rt (cache_text Node.helper_records) =
               Some (JObj (stored (VersionNumber 4)
                             [("files", records_json Node.helper_records)])))
    by (vm_compute; reflexivity).
  assert (H10 : disk (Node.world Node.helped) =
                disk (snd (@loadConfig rt "app" w))) by reflexivity.
  exact (@unchanged_files_are_not_recompiled rt "app" w _ built
           Node.helper_records H1 H2 H3 H4 H5 H6 H7 H8 H9 Hinputs
           (Node.world Node.helped) H10).
Defined.

(** ** An empty source file *)

(** C1 at an empty dependency. The cache record is there with the expected
    version, every recorded file exists and the fingerprint of each is the
    stored one, and still the call compiles: the check takes the empty text
    of [empty.ts] for a missing file. *)
Theorem empty_dependency_is_taken_for_missing :
  let rt := Node.with_empty in
  let w := Node.world Node.emptied in
  Fs.existsSync (disk w) (entryPoint "app") = true /\
  @cached rt "app" w = Ok (Some (records_json Node.empty_records)) /\
  forallb (fun r => Fs.existsSync (disk w) (fst r) && @fresh rt (disk w) r)
          Node.empty_records = true /\
  text_at (disk w) "empty.ts" = Some "" /\
  @stale rt (JArr [JStr "empty.ts"; JStr (Sha1.hexdigest "")]) w = (Ok true, w) /\
  compilations (events (snd (@loadConfig rt "app" w))) = 1.
Proof. intros rt w. repeat split; vm_compute; reflexivity. Qed.

(** C2 at an empty dependency. A first call compiles and returns; nothing is
    touched; the second call returns the same files but compiles again. With
    a helper file that is not empty the second call does not compile. *)
Theorem empty_dependency_is_compiled_again :
  let rt := Node.with_empty in
  let first := @loadConfig rt "app" (Node.world Node.project_with_empty) in
  let second := @loadConfig rt "app" (Node.world (disk (snd first))) in
  fst first = Ok (Some {| config := Node.port;
                          files := ["app.config.ts"; "empty.ts"] |}) /\
  fst second = fst first /\
  compilations (events (snd first)) = 1 /\
  compilations (events (snd second)) = 1 /\
  compilations
    (events (snd (@loadConfig Node.with_helper "app" (Node.world Node.helped)))) = 0.
Proof. intros rt first second. repeat split; vm_compute; reflexivity. Qed.

(** A dependency that is not well-formed UTF-8 is compiled again as well:
    its record holds the fingerprint of its bytes, the check compares with
    the fingerprint of the text the bytes decode to. *)
Lemma latin1_dependency_is_compiled_again :
  let rt := Node.with_latin1 in
  let first := @loadConfig rt "app" (Node.world Node.project_with_latin1) in
  let second := @loadConfig rt "app" (Node.world (disk (snd first))) in
  fst second = fst first /\
  compilations (events (snd first)) = 1 /\
  compilations (events (snd second)) = 1 /\
  @getHash rt (Buffer ("// caf" +:+ String (ascii_of_N 233) "")) <>
  @getHash rt (Text (Utf8.decode ("// caf" +:+ String (ascii_of_N 233) ""))).
Proof.
  intros rt first second.
  repeat split; try (vm_compute; reflexivity). vm_compute. discriminate.
Qed.

(** * More about the cache file *)

Lemma lookup_remove_eq (k : string) (o : Json.object) :
  Json.lookup k (Json.remove k o) = None.
Proof.
  induction o as [|[k0 v0] o IH]; simpl; [reflexivity |].
  destruct (String.eqb k k0) eqn:E; [exact IH |]. simpl. now rewrite E.
Qed.

Lemma lookup_remove_ne (k k' : string) (o : Json.object) :
  k' <> k -> Json.lookup k' (Json.remove k o) = Json.lookup k' o.
Proof.
  intros Hne. induction o as [|[k0 v0] o IH]; simpl; [reflexivity |].
  destruct (String.eqb k k0) eqn:E; simpl.
  - apply String.eqb_eq in E. subst k0.
    apply String.eqb_neq in Hne. now rewrite Hne.
  - now rewrite IH.
Qed.

Lemma strict_equal_true (found : option json) (v : version) :
  strict_equal found v = true <-> found = Some (version_json v).
Proof.
  destruct found as [[| |n|s| |]|], v as [m|t]; simpl;
    try (split; [discriminate | intros [=]]).
  - rewrite Z.eqb_eq. split; [now intros -> | now intros [= ->]].
  - rewrite String.eqb_eq. split; [now intros -> | now intros [= ->]].
Qed.


Section Cache_more.

Context `{Runtime}.

(** X1. Whenever [read] gives a payload, the file at the path is a regular
    file whose text parses to an object stamped with exactly the expected
    version; the payload is that object without its [version], so it has no
    [version] property; and nothing in the world has changed. Arrays,
    numbers, strings and booleans, as well as objects with another or no
    version, are never handed out. *)
Theorem read_gives_stamped_objects (path : string) (v : version) (w w' : World)
    (payload : json) :
  read (jsonCache path v) w = (Ok (Some payload), w') ->
  w' = w /\
  exists (bytes : string) (props : Json.object),
    disk w !! path = Some (Fs.File bytes) /\
    JSON_parse (Utf8.decode bytes) = Some (JObj props) /\
    Json.lookup "version" props = Some (version_json v) /\
    payload = JObj (Json.remove "version" props) /\
    member payload "version" = Ok None.
Proof.
  rewrite read_unfold.
  destruct (disk w !! path) as [[bytes|]|] eqn:Hfile; try discriminate.
  cbv zeta. destruct (String.eqb (Utf8.decode bytes) ""); [discriminate |].
  destruct (JSON_parse (Utf8.decode bytes)) as [parsed|] eqn:Hparse;
    [|discriminate].
  destruct (member parsed "version") as [found|e] eqn:Hmember; [|discriminate].
  destruct (strict_equal found v) eqn:Heq; [|discriminate].
  intros [= <- <-]. split; [reflexivity |].
  apply strict_equal_true in Heq. subst found.
  destruct parsed as [| | | | |props]; simpl in Hmember; try discriminate.
  injection Hmember as Hversion.
  exists bytes, props. repeat split; try assumption; try reflexivity.
  simpl. now rewrite lookup_remove_eq.
Qed.



End Cache_more.

(** * More about the decision to compile *)

Section Deciding_more.

Context `{Runtime}.

Lemma cached_unfold (name : string) (w : World) :
  cached name w =
  match disk w !! cache_path name with
  | Some (Fs.File bytes) =>
      if String.eqb (Utf8.decode bytes) "" then Ok None
      else match JSON_parse (Utf8.decode bytes) with
           | None => Raise SyntaxError
           | Some JNull => Raise TypeError
           | Some (JObj props) =>
               if strict_equal (Json.lookup "version" props) (VersionNumber 4)
               then Ok (Json.lookup "files" props)
               else Ok None
           | Some _ => Ok None
           end
  | Some Fs.Dir => Raise (SystemError Fs.EISDIR (cache_path name))
  | None => Ok None
  end.
Proof.
  unfold cached, cache. fold (cache_path name). rewrite read_unfold.
  destruct (disk w !! cache_path name) as [[bytes|]|]; try reflexivity.
  cbv zeta. destruct (String.eqb (Utf8.decode bytes) ""); [reflexivity |].
  destruct (JSON_parse (Utf8.decode bytes)) as [[| | | | |props]|];
    try reflexivity.
  simpl. destruct (strict_equal _ _); [|reflexivity]. simpl.
  now rewrite lookup_remove_ne by discriminate.
Qed.

(** Without usable records the call compiles. *)
Lemma falsy_cache_compiles (name : string) (w : World) (held : option json) :
  Fs.existsSync (disk w) (entryPoint name) = true ->
  cached name w = Ok held ->
  falsy held = true ->
  prepare name w = rebuilt name w.
Proof.
  intros Hentry Hcached Hfalsy. rewrite prepare_unfold, Hentry, Hcached.
  destruct held as [held|]; [|reflexivity]. now rewrite Hfalsy.
Qed.

(** X4. With an entry file, the call invokes the compiler whenever there is
    no usable cache record: no cache file, an empty one, one whose JSON is
    neither [null] nor an object, or an object whose [version] is not the
    number 4 (a missing version, another number, or the string of the same
    digits). *)
Theorem unusable_cache_is_rebuilt (name : string) (w : World) :
  Fs.existsSync (disk w) (entryPoint name) = true ->
  (disk w !! cache_path name = None \/
   exists bytes,
     disk w !! cache_path name = Some (Fs.File bytes) /\
     (Utf8.decode bytes = "" \/
      exists parsed,
        JSON_parse (Utf8.decode bytes) = Some parsed /\
        parsed <> JNull /\
        forall props, parsed = JObj props ->
                      Json.lookup "version" props <> Some (JNum 4))) ->
  exists es,
    events (snd (loadConfig name w)) =
    (events w ++ Compile (build_options (entryPoint name) (output name)) :: es)%list.
Proof.
  intros Hentry Hcache. apply loadConfig_compiles.
  apply (falsy_cache_compiles name w None Hentry); [|reflexivity].
  rewrite cached_unfold.
  destruct Hcache as [->|(bytes & -> & [->|(parsed & -> & Hnull & Hversion)])];
    try reflexivity.
  destruct (String.eqb (Utf8.decode bytes) ""); [reflexivity |].
  destruct parsed as [| | | | |props]; try reflexivity; [congruence |].
  destruct (strict_equal _ _) eqn:Heq; [|reflexivity].
  apply strict_equal_true in Heq. now apply Hversion in Heq.
Qed.

(** X5. A cache record with the right version whose [files] is missing or
    falsy ([null], [false], [0], the empty string) makes the call compile;
    one whose [files] is truthy and not an array makes the call fail with a
    TypeError before anything is compiled or written. *)
Theorem files_must_be_an_array (name : string) (w : World) (bytes : string)
    (props : Json.object) :
  Fs.existsSync (disk w) (entryPoint name) = true ->
  disk w !! cache_path name = Some (Fs.File bytes) ->
  Utf8.decode bytes <> "" ->
  JSON_parse (Utf8.decode bytes) = Some (JObj props) ->
  Json.lookup "version" props = Some (JNum 4) ->
  (falsy (Json.lookup "files" props) = true ->
   exists es,
     events (snd (loadConfig name w)) =
     (events w ++ Compile (build_options (entryPoint name) (output name)) :: es)%list) /\
  (forall held,
     Json.lookup "files" props = Some held ->
     falsy (Some held) = false ->
     (forall items, held <> JArr items) ->
     loadConfig name w = (Raise TypeError, w)).
Proof.
  intros Hentry Hfile Hne Hparse Hversion.
  assert (Hcached : cached name w = Ok (Json.lookup "files" props)).
  { rewrite cached_unfold, Hfile. apply String.eqb_neq in Hne.
    rewrite Hne, Hparse, Hversion. reflexivity. }
  split.
  - intros Hfalsy. apply loadConfig_compiles.
    now apply (falsy_cache_compiles name w _ Hentry Hcached).
  - intros held Hheld Htruthy Hshape.
    unfold loadConfig, bind.
    rewrite prepare_unfold, Hentry, Hcached, Hheld, Htruthy.
    destruct held; try reflexivity. now destruct (Hshape items).
Qed.

(** The check of the records in front of a stale one. *)
Lemma some_skips_fresh (front : list (string * string)) (rest : list json)
    (w : World) :
  (forall r, In r front ->
     fresh (disk w) r = true /\ blank (disk w) r = false) ->
  some stale
    (map (fun r => JArr [JStr (fst r); JStr (snd r)]) front ++ rest)%list w =
  some stale rest w.
Proof.
  induction front as [|r front IH]; intros Hfront; [reflexivity |].
  simpl. unfold bind at 1. rewrite stale_record.
  destruct (Hfront r (or_introl eq_refl)) as [Hfresh Hblank].
  assert (Hfile : exists bytes, disk w !! fst r = Some (Fs.File bytes)).
  { unfold fresh, text_at in Hfresh.
    destruct (disk w !! fst r) as [[bytes|]|]; try discriminate. eauto. }
  destruct Hfile as [bytes ->]. rewrite Hfresh, Hblank. simpl.
  apply IH. intros r' Hin. apply Hfront. now right.
Qed.

(** X6. The check stops at the first stale record. Let the records in front
    of it be fresh, and let its own file be missing, empty or of another
    fingerprint. Then the check answers that something is stale without
    looking at what follows, whatever that is (records of directories or
    values that are no records at all), and the call compiles. *)
Theorem check_stops_at_first_stale (name : string) (w : World)
    (front : list (string * string)) (record : string * string)
    (rest : list json) :
  Fs.existsSync (disk w) (entryPoint name) = true ->
  cached name w =
    Ok (Some (JArr (map (fun r => JArr [JStr (fst r); JStr (snd r)]) front
                    ++ JArr [JStr (fst record); JStr (snd record)] :: rest)%list)) ->
  (forall r, In r front ->
     fresh (disk w) r = true /\ blank (disk w) r = false) ->
  disk w !! fst record <> Some Fs.Dir ->
  blank (disk w) record || negb (fresh (disk w) record) = true ->
  exists es,
    events (snd (loadConfig name w)) =
    (events w ++ Compile (build_options (entryPoint name) (output name)) :: es)%list.
Proof.
  intros Hentry Hcached Hfront Hdir Hstale. apply loadConfig_compiles.
  rewrite prepare_unfold, Hentry, Hcached. simpl falsy. cbv iota.
  simpl some_stale. rewrite (some_skips_fresh front _ w Hfront).
  simpl. unfold bind. rewrite stale_record.
  destruct (disk w !! fst record) as [[bytes|]|] eqn:Hfile.
  - rewrite Hstale. reflexivity.
  - congruence.
  - reflexivity.
Qed.

(** X7. A recorded path that has become a directory, met before any stale
    record, ends the call with the error of the file system: nothing is
    compiled, written or loaded. *)
Theorem directory_dependency_is_fatal (name : string) (w : World)
    (front : list (string * string)) (path hash : string) (rest : list json) :
  Fs.existsSync (disk w) (entryPoint name) = true ->
  cached name w =
    Ok (Some (JArr (map (fun r => JArr [JStr (fst r); JStr (snd r)]) front
                    ++ JArr [JStr path; JStr hash] :: rest)%list)) ->
  (forall r, In r front ->
     fresh (disk w) r = true /\ blank (disk w) r = false) ->
  disk w !! path = Some Fs.Dir ->
  loadConfig name w = (Raise (SystemError Fs.EISDIR path), w).
Proof.
  intros Hentry Hcached Hfront Hdir.
  unfold loadConfig. unfold bind at 1.
  rewrite prepare_unfold, Hentry, Hcached. simpl falsy. cbv iota.
  simpl some_stale. rewrite (some_skips_fresh front _ w Hfront).
  simpl. unfold bind.
  rewrite (stale_record (path, hash) w). simpl fst. rewrite Hdir. reflexivity.
Qed.

End Deciding_more.

(** * More about a build *)

Section Build_more.

Context `{Runtime}.

Lemma logEsbuildErrors_unfold (result : BuildResult) (w : World) :
  logEsbuildErrors result w = (Ok tt, moved w (disk w) (printed result)).
Proof.
  unfold logEsbuildErrors, printed, moved.
  destruct (negb (length (errors result) =? 0)%nat); [reflexivity |].
  destruct (negb (length (warnings result) =? 0)%nat); [reflexivity |].
  unfold ret. rewrite app_nil_r. now destruct w.
Qed.

Lemma moved_moved (w : World) (d1 d2 : gmap string Fs.node) (es1 es2 : list event) :
  moved (moved w d1 es1) d2 es2 = moved w d2 (es1 ++ es2).
Proof. unfold moved. simpl. now rewrite app_assoc. Qed.

(** What follows a build that returned, step by step. *)
Lemma record_build_unfold (name : string) (result : BuildResult) (w : World) :
  record_build (cache name) (cacheDir name) result w =
  match fingerprints (disk w) (metafile_inputs result) with
  | Raise e => (Raise e, moved w (disk w) (printed result))
  | Ok records =>
      match Fs.refusal (disk w) (cache_path name) with
      | Some code =>
          (Raise (SystemError code (cache_path name)),
           moved w (disk w) (printed result))
      | None =>
          let disk1 := <[cache_path name := Fs.File (cache_text records)]> (disk w) in
          match Fs.refusal disk1 (marker_path name) with
          | Some code =>
              (Raise (SystemError code (marker_path name)),
               moved w disk1
                 (printed result ++
                  [WriteFile (cache_path name) (cache_text records)]))
          | None =>
              (Ok (records_json records),
               moved w (<[marker_path name := Fs.File marker]> disk1)
                 (printed result ++
                  [WriteFile (cache_path name) (cache_text records);
                   WriteFile (marker_path name) marker]))
          end
      end
  end.
Proof.
  unfold record_build. unfold bind at 1. rewrite logEsbuildErrors_unfold.
  unfold bind at 1. rewrite map_M_fingerprints. simpl disk.
  destruct (fingerprints (disk w) (metafile_inputs result)) as [records|e];
    [|reflexivity].
  change (write (cache name)
            [("files", JArr (map (fun r : string * string =>
                                    JArr [JStr (fst r); JStr (snd r)]) records))])
    with (writeFileSync (cache_path name) (cache_text records)).
  change (JArr (map (fun r : string * string => JArr [JStr (fst r); JStr (snd r)])
                    records)) with (records_json records).
  change (join (cacheDir name) "package.json") with (marker_path name).
  generalize (cache_text records) as text. intros text.
  generalize (records_json records) as files. intros files.
  unfold bind at 1. rewrite writeFileSync_unfold. cbn [disk now events moved].
  destruct (Fs.refusal (disk w) (cache_path name)) as [code|]; [reflexivity |].
  unfold bind. rewrite writeFileSync_unfold. cbn [disk now events].
  destruct (Fs.refusal _ (marker_path name)) as [code|];
    unfold moved, ret; cbn [disk now events]; rewrite <- ?app_assoc;
    reflexivity.
Qed.

(** The compiling branch, step by step. *)
Lemma rebuilt_unfold (name : string) (w : World) :
  rebuilt name w =
  match build (disk w) (build_options (entryPoint name) (output name)) with
  | (Raise e, disk') => (Raise e, compiled name w disk')
  | (Ok result, disk') =>
      match record_build (cache name) (cacheDir name) result
              (compiled name w disk') with
      | (Ok files, w') => (Ok (Some files), w')
      | (Raise e, w') => (Raise e, w')
      end
  end.
Proof.
  unfold rebuilt, rebuild, bind, run_build, compiled.
  destruct (build (disk w) _) as [[result|e] disk']; [|reflexivity].
  destruct (record_build _ _ _ _) as [[files|e] w']; reflexivity.
Qed.

Lemma fingerprints_paths (disk : gmap string Fs.node) (inputs : list string)
    (records : list (string * string)) :
  fingerprints disk inputs = Ok records -> map fst records = inputs.
Proof.
  revert records. induction inputs as [|path inputs IH]; intros records Hf.
  - now injection Hf as <-.
  - simpl in Hf. destruct (Fs.readFileSync disk path); [discriminate |].
    destruct (fingerprints disk inputs) as [rest|e]; [|discriminate].
    injection Hf as <-. simpl. now rewrite (IH rest).
Qed.

Lemma fingerprints_files (disk : gmap string Fs.node) (inputs : list string) :
  (forall p, In p inputs -> exists bytes, disk !! p = Some (Fs.File bytes)) ->
  exists records, fingerprints disk inputs = Ok records.
Proof.
  induction inputs as [|path inputs IH]; intros Hfiles; [now eexists |].
  destruct (Hfiles path (or_introl eq_refl)) as [bytes Hfile].
  destruct IH as [rest Hrest]; [intros p Hin; apply Hfiles; now right |].
  simpl. unfold Fs.readFileSync. rewrite Hfile, Hrest. now eexists.
Qed.

Lemma fingerprints_unreadable (disk : gmap string Fs.node)
    (front : list string) (path : string) (rest : list string) :
  (forall p, In p front -> exists bytes, disk !! p = Some (Fs.File bytes)) ->
  (forall bytes, disk !! path <> Some (Fs.File bytes)) ->
  fingerprints disk (front ++ path :: rest) =
  Raise (SystemError (match disk !! path with
                      | Some _ => Fs.EISDIR
                      | None => Fs.ENOENT
                      end) path).
Proof.
  intros Hfront Hpath. induction front as [|p front IH]; simpl.
  - unfold Fs.readFileSync.
    destruct (disk !! path) as [[bytes|]|]; try reflexivity.
    now destruct (Hpath bytes).
  - destruct (Hfront p (or_introl eq_refl)) as [bytes Hfile].
    unfold Fs.readFileSync at 1. rewrite Hfile.
    rewrite IH; [reflexivity | intros q Hin; apply Hfront; now right].
Qed.

End Build_more.

(** * More about a whole call *)

Section Call_more.

Context `{Runtime}.

Lemma compilations_app (a b : list event) :
  compilations (a ++ b) = compilations a + compilations b.
Proof. unfold compilations. now rewrite List.filter_app, List.length_app. Qed.

Lemma imports_app (a b : list event) : imports (a ++ b) = imports a + imports b.
Proof. unfold imports. now rewrite List.filter_app, List.length_app. Qed.

Lemma written_app (a b : list event) : written (a ++ b) = (written a ++ written b)%list.
Proof. unfold written. apply flat_map_app. Qed.

Lemma printed_cases (result : BuildResult) :
  printed result = [] \/ exists text, printed result = [ConsoleLog text].
Proof.
  unfold printed.
  destruct (negb (length (errors result) =? 0)%nat); [right; now eexists |].
  destruct (negb (length (warnings result) =? 0)%nat); [right; now eexists | now left].
Qed.

Lemma imported_moved (name : string) (w : World) (d : gmap string Fs.node)
    (es : list event) :
  imported name (moved w d es) =
  moved w d (es ++ [Import (specifier name (now w))]).
Proof. unfold imported, moved. simpl. now rewrite app_assoc. Qed.

Lemma moved_compiled (name : string) (w : World) (d1 d2 : gmap string Fs.node)
    (es : list event) :
  moved (compiled name w d1) d2 es =
  moved w d2 (Compile (build_options (entryPoint name) (output name)) :: es).
Proof. unfold moved, compiled. simpl. now rewrite <- app_assoc. Qed.

Lemma since_moved (w : World) (d : gmap string Fs.node) (es : list event) :
  since w (moved w d es) = es.
Proof. now apply since_app. Qed.

Lemma moved_nothing (w : World) : moved w (disk w) [] = w.
Proof. unfold moved. rewrite app_nil_r. now destruct w. Qed.

(** The ways a call can go, with the world each leaves. *)
Lemma loadConfig_runs (name : string) (w : World) :
  let options := build_options (entryPoint name) (output name) in
  let load := Import (specifier name (now w)) in
  snd (loadConfig name w) = w \/
  snd (loadConfig name w) = moved w (disk w) [load] \/
  exists r disk1,
    build (disk w) options = (r, disk1) /\
    (snd (loadConfig name w) = moved w disk1 [Compile options] \/
     exists result records,
       r = Ok result /\
       (snd (loadConfig name w) = moved w disk1 (Compile options :: printed result) \/
        snd (loadConfig name w) =
          moved w (<[cache_path name := Fs.File (cache_text records)]> disk1)
            (Compile options :: printed result ++
             [WriteFile (cache_path name) (cache_text records)]) \/
        snd (loadConfig name w) =
          moved w (<[marker_path name := Fs.File marker]>
                     (<[cache_path name := Fs.File (cache_text records)]> disk1))
            (Compile options :: printed result ++
             [WriteFile (cache_path name) (cache_text records);
              WriteFile (marker_path name) marker; load]))).
Proof.
  intros options load.
  assert (Hstop : forall r, prepare name w = (r, w) ->
            (forall files, r <> Ok (Some files)) -> snd (loadConfig name w) = w).
  { intros r Hp Hr. unfold loadConfig, bind. rewrite Hp.
    destruct r as [[files|]|e]; try reflexivity. now destruct (Hr files). }
  assert (Hbuilt : prepare name w = rebuilt name w ->
    exists r disk1,
      build (disk w) options = (r, disk1) /\
      (snd (loadConfig name w) = moved w disk1 [Compile options] \/
       exists result records,
         r = Ok result /\
         (snd (loadConfig name w) =
            moved w disk1 (Compile options :: printed result) \/
          snd (loadConfig name w) =
            moved w (<[cache_path name := Fs.File (cache_text records)]> disk1)
              (Compile options :: printed result ++
               [WriteFile (cache_path name) (cache_text records)]) \/
          snd (loadConfig name w) =
            moved w (<[marker_path name := Fs.File marker]>
                       (<[cache_path name := Fs.File (cache_text records)]> disk1))
              (Compile options :: printed result ++
               [WriteFile (cache_path name) (cache_text records);
                WriteFile (marker_path name) marker; load])))).
  { intros Hp.
    assert (Hrun : forall r w1, rebuilt name w = (r, w1) ->
      snd (loadConfig name w) =
      match r with
      | Ok (Some _) => imported name w1
      | _ => w1
      end).
    { intros r w1 Hr. unfold loadConfig, bind. rewrite Hp, Hr.
      destruct r as [[files|]|e]; try reflexivity. apply load_world. }
    pose proof (rebuilt_unfold name w) as Hr. fold options in Hr.
    destruct (build (disk w) options) as [[result|e] disk1].
    2: { exists (Raise e), disk1. split; [reflexivity |]. left.
         now rewrite (Hrun _ _ Hr). }
    exists (Ok result), disk1. split; [reflexivity |]. right.
    rewrite record_build_unfold in Hr. cbn [disk compiled] in Hr.
    destruct (fingerprints disk1 (metafile_inputs result)) as [records|e].
    2: { exists result, []. split; [reflexivity |]. left.
         rewrite (Hrun _ _ Hr). now rewrite moved_compiled. }
    exists result, records. split; [reflexivity |].
    destruct (Fs.refusal disk1 (cache_path name)) as [code|].
    { left. rewrite (Hrun _ _ Hr). now rewrite moved_compiled. }
    cbv zeta in Hr.
    destruct (Fs.refusal _ (marker_path name)) as [code|];
      rewrite (Hrun _ _ Hr), moved_compiled.
    - right; left; reflexivity.
    - right; right. rewrite imported_moved. simpl.
      rewrite <- app_assoc. reflexivity. }
  pose proof (prepare_unfold name w) as Hp.
  destruct (Fs.existsSync (disk w) (entryPoint name)).
  - destruct (cached name w) as [[held|]|e0].
    + destruct (falsy (Some held)); [right; right; now apply Hbuilt |].
      destruct (fst (some_stale held w)) as [[]|e0].
      * right; right; now apply Hbuilt.
      * right; left. rewrite (loadConfig_prepared _ _ _ _ Hp), load_world.
        unfold imported, moved. reflexivity.
      * left. apply (Hstop _ Hp). discriminate.
    + right; right; now apply Hbuilt.
    + left. apply (Hstop _ Hp). discriminate.
  - left. apply (Hstop _ Hp). discriminate.
Qed.

(** X8. What a call asks of the outside comes in a fixed order. Either it
    asks nothing, or it only loads the artifact, or it starts by invoking
    the compiler, then prints at most one text, then writes the cache file,
    then the marker, then loads the artifact, stopping early when a step
    fails. So the compiler runs at most once per call, a module is loaded at
    most once, nothing is written but the cache file and the marker, and
    nothing is written or loaded before the compiler has returned. *)
Theorem call_events_are_ordered (name : string) (w : World) :
  let options := build_options (entryPoint name) (output name) in
  let load := Import (specifier name (now w)) in
  exists es,
    events (snd (loadConfig name w)) = (events w ++ es)%list /\
    (es = [] \/ es = [load] \/
     exists logs writes,
       es = (Compile options :: logs ++ writes)%list /\
       (logs = [] \/ exists text, logs = [ConsoleLog text]) /\
       (writes = [] \/
        (exists text, writes = [WriteFile (cache_path name) text]) \/
        (exists text, writes = [WriteFile (cache_path name) text;
                                WriteFile (marker_path name) marker; load]))) /\
    compilations es <= 1 /\
    imports es <= 1 /\
    (written es = [] \/ written es = [cache_path name] \/
     written es = [cache_path name; marker_path name]).
Proof.
  intros options load.
  assert (Hlogs : forall result,
    compilations (printed result) = 0 /\ imports (printed result) = 0 /\
    written (printed result) = []).
  { intros result. destruct (printed_cases result) as [->|[text ->]]; auto. }
  destruct (loadConfig_runs name w)
    as [->|[->|(r & disk1 & _ & [->|(result & records & _ & [->|[->| ->]])])]];
    fold options; fold load.
  - exists []. rewrite app_nil_r. simpl. auto 10.
  - exists [load]. simpl. auto 10.
  - exists [Compile options]. split; [reflexivity |]. split; [|simpl; auto].
    right; right. exists [], []. auto.
  - exists (Compile options :: printed result). split; [reflexivity |].
    destruct (Hlogs result) as (Hc & Hi & Hw).
    change (Compile options :: printed result)
      with ([Compile options] ++ printed result)%list.
    rewrite compilations_app, imports_app, written_app, Hc, Hi, Hw.
    split; [|simpl; auto]. right; right. exists (printed result), [].
    rewrite app_nil_r. split; [reflexivity |].
    split; [apply printed_cases | now left].
  - eexists. split; [reflexivity |].
    destruct (Hlogs result) as (Hc & Hi & Hw).
    change (Compile options :: printed result ++ ?tail)%list
      with ([Compile options] ++ printed result ++ tail)%list.
    rewrite !compilations_app, !imports_app, !written_app, Hc, Hi, Hw.
    split; [|simpl; auto]. right; right. eexists (printed result), _.
    split; [reflexivity |]. split; [apply printed_cases |].
    right; left. now eexists.
  - eexists. split; [reflexivity |].
    destruct (Hlogs result) as (Hc & Hi & Hw).
    change (Compile options :: printed result ++ ?tail)%list
      with ([Compile options] ++ printed result ++ tail)%list.
    rewrite !compilations_app, !imports_app, !written_app, Hc, Hi, Hw.
    split; [|simpl; auto]. right; right. eexists (printed result), _.
    split; [reflexivity |]. split; [apply printed_cases |].
    right; right. now eexists.
Qed.

(** X9. A call changes no file of its own accord but the cache file and the
    marker, and it leaves the clock alone. If it does not invoke the
    compiler, the files are exactly what they were; if it does, every other
    path holds what the compiler left there. *)
Theorem call_touches_two_files (name : string) (w : World) :
  let options := build_options (entryPoint name) (output name) in
  let w' := snd (loadConfig name w) in
  now w' = now w /\
  ((compilations (since w w') = 0 /\ disk w' = disk w) \/
   (compilations (since w w') = 1 /\
    forall p, p <> cache_path name -> p <> marker_path name ->
              disk w' !! p = snd (build (disk w) options) !! p)).
Proof.
  intros options w'. unfold w'.
  assert (Hlogs : forall result, compilations (printed result) = 0).
  { intros result. destruct (printed_cases result) as [->|[text ->]]; auto. }
  assert (Hone : forall result tail,
    compilations tail = 0 ->
    compilations (Compile options :: printed result ++ tail) = 1).
  { intros result tail Htail.
    change (Compile options :: printed result ++ tail)%list
      with ([Compile options] ++ printed result ++ tail)%list.
    now rewrite !compilations_app, Hlogs, Htail. }
  destruct (loadConfig_runs name w)
    as [->|[->|(r & disk1 & Hbuild & [->|(result & records & _ & [->|[->| ->]])])]];
    fold options; try fold options in Hbuild; (split; [reflexivity |]).
  - left. split; [|reflexivity].
    rewrite (since_app w w []); [reflexivity | now rewrite app_nil_r].
  - left. split; [|reflexivity]. now rewrite since_moved.
  - right. rewrite since_moved, Hbuild. auto.
  - right. rewrite since_moved, Hbuild.
    split; [|auto]. rewrite <- (app_nil_r (printed result)). now apply Hone.
  - right. rewrite since_moved, Hbuild.
    split; [now apply Hone |]. intros p Hc Hm. simpl.
    now rewrite lookup_insert_ne by congruence.
  - right. rewrite since_moved, Hbuild.
    split; [now apply Hone |]. intros p Hc Hm. simpl.
    rewrite lookup_insert_ne by congruence.
    now rewrite lookup_insert_ne by congruence.
Qed.

End Call_more.

(** * More about what a build leaves *)

Section Build_results.

Context `{Runtime}.

Lemma loadConfig_rebuilt (name : string) (w w1 : World) (r : result (option json)) :
  prepare name w = rebuilt name w ->
  rebuilt name w = (r, w1) ->
  loadConfig name w =
  match r with
  | Ok (Some files) => load (entryPoint name) (output name) files w1
  | Ok None => (Ok None, w1)
  | Raise e => (Raise e, w1)
  end.
Proof.
  intros Hp Hr. unfold loadConfig, bind. rewrite Hp, Hr.
  now destruct r as [[files|]|e].
Qed.

(** X10. What a build that returns leaves behind. Let the call compile, the
    compiler return, every input it reports be a regular file, and neither
    the cache path nor the marker path be a directory. Then the cache file
    is written with one record per reported input, in the reported order,
    each with the fingerprint of the bytes of that file; the marker is
    written after it; the artifact is loaded last; and if the call returns,
    its [files] are the reported inputs, in order. Errors or warnings in the
    returned result are printed and stop nothing. *)
Theorem build_is_recorded (name : string) (w : World) (result : BuildResult)
    (disk1 : gmap string Fs.node) :
  prepare name w = rebuilt name w ->
  build (disk w) (build_options (entryPoint name) (output name)) = (Ok result, disk1) ->
  (forall p, In p (metafile_inputs result) ->
     exists bytes, disk1 !! p = Some (Fs.File bytes)) ->
  disk1 !! cache_path name <> Some Fs.Dir ->
  disk1 !! marker_path name <> Some Fs.Dir ->
  exists records,
    map fst records = metafile_inputs result /\
    (forall p h, In (p, h) records ->
       exists bytes, disk1 !! p = Some (Fs.File bytes) /\
                     h = getHash (Buffer bytes)) /\
    snd (loadConfig name w) =
      moved w (<[marker_path name := Fs.File marker]>
                 (<[cache_path name := Fs.File (cache_text records)]> disk1))
        (Compile (build_options (entryPoint name) (output name))
         :: printed result ++
            [WriteFile (cache_path name) (cache_text records);
             WriteFile (marker_path name) marker;
             Import (specifier name (now w))]) /\
    (forall r, fst (loadConfig name w) = Ok (Some r) ->
               files r = metafile_inputs result).
Proof.
  intros Hp Hbuild Hinputs Hcache Hmarker.
  destruct (fingerprints_files disk1 _ Hinputs) as [records Hprints].
  exists records.
  assert (Hr : rebuilt name w =
    (Ok (Some (records_json records)),
     moved w (<[marker_path name := Fs.File marker]>
                (<[cache_path name := Fs.File (cache_text records)]> disk1))
       (Compile (build_options (entryPoint name) (output name))
        :: printed result ++
           [WriteFile (cache_path name) (cache_text records);
            WriteFile (marker_path name) marker]))).
  { rewrite rebuilt_unfold, Hbuild, record_build_unfold.
    cbn [disk compiled]. rewrite Hprints.
    destruct (built_directory name w result disk1 Hbuild) as [Hdir1 Hdir2].
    assert (Hmarker' :
      <[cache_path name:=Fs.File (cache_text records)]> disk1 !! marker_path name
      <> Some Fs.Dir).
    { destruct (decide (cache_path name = marker_path name)) as [<-|Hne].
      - now rewrite lookup_insert_eq.
      - now rewrite lookup_insert_ne. }
    assert (Hdir2' :
      Fs.directory (<[cache_path name:=Fs.File (cache_text records)]> disk1)
        (Fs.dirname (marker_path name)) = true).
    { rewrite <- (cache_marker_dirname name). apply directory_kept.
      exact Hdir1. }
    rewrite (refusal_none _ _ Hdir1 Hcache). cbv zeta.
    rewrite (refusal_none _ _ Hdir2' Hmarker').
    now rewrite moved_compiled. }
  rewrite (loadConfig_rebuilt name w _ _ Hp Hr).
  split; [now apply fingerprints_paths in Hprints |].
  split; [now apply (fingerprints_in _ _ _ Hprints) |].
  split.
  - rewrite load_world, imported_moved. simpl. now rewrite <- app_assoc.
  - intros r Hfiles. rewrite <- (fingerprints_paths _ _ _ Hprints).
    rewrite <- paths_of_records. rewrite load_unfold in Hfiles.
    destruct (import_module _ _) as [m|e]; [|discriminate]. simpl in Hfiles.
    destruct (truthy (Js.get m "config")); [|discriminate].
    destruct (Js.get m "config"); try (injection Hfiles as <-; reflexivity).
    destruct (do_call call); [|discriminate]. now injection Hfiles as <-.
Qed.

(** X11. An input that cannot be read stops the call before the cache. Let
    the call compile and the compiler return a list of inputs the first
    unreadable one of which is [path], a missing file or a directory. Then
    the call fails with the error of reading [path], [ENOENT] or [EISDIR];
    the inputs after it are not read; neither the cache file nor the marker
    is written and no module is loaded: the files are as the compiler left
    them. *)
Theorem unreadable_input_is_fatal (name : string) (w : World)
    (result : BuildResult) (disk1 : gmap string Fs.node)
    (front : list string) (path : string) (rest : list string) :
  prepare name w = rebuilt name w ->
  build (disk w) (build_options (entryPoint name) (output name)) = (Ok result, disk1) ->
  metafile_inputs result = (front ++ path :: rest)%list ->
  (forall p, In p front -> exists bytes, disk1 !! p = Some (Fs.File bytes)) ->
  (forall bytes, disk1 !! path <> Some (Fs.File bytes)) ->
  loadConfig name w =
    (Raise (SystemError (match disk1 !! path with
                         | Some _ => Fs.EISDIR
                         | None => Fs.ENOENT
                         end) path),
     moved w disk1
       (Compile (build_options (entryPoint name) (output name)) :: printed result)).
Proof.
  intros Hp Hbuild Hinputs Hfront Hpath.
  rewrite (loadConfig_rebuilt name w
             (moved w disk1
                (Compile (build_options (entryPoint name) (output name))
                 :: printed result))
             (Raise (SystemError (match disk1 !! path with
                                  | Some _ => Fs.EISDIR
                                  | None => Fs.ENOENT
                                  end) path)) Hp); [reflexivity |].
  rewrite rebuilt_unfold, Hbuild, record_build_unfold. cbn [disk compiled].
  rewrite Hinputs, (fingerprints_unreadable disk1 front path rest Hfront Hpath).
  now rewrite moved_compiled.
Qed.

End Build_results.

(** * More about loading *)

Section Loading_more.

Context `{Runtime}.

(** X12. Failures of the module come through unchanged. Once the call has
    come as far as loading: if loading the artifact throws, the call fails
    with that error; if [config] is a function and calling it throws, or
    the promise it returns is rejected, the call fails with that error. In
    each case the cache that a build may have written before stays. *)
Theorem module_failures_propagate (name : string) (w w1 : World) (files : json) :
  prepare name w = (Ok (Some files), w1) ->
  (forall e, import_module (disk w1) (specifier name (now w1)) = Raise e ->
     loadConfig name w = (Raise e, imported name w1)) /\
  (forall m f e,
     import_module (disk w1) (specifier name (now w1)) = Ok m ->
     m !! "config" = Some (VFunction f) ->
     (f = inl e \/ exists v, f = inr v /\ await v = Raise e) ->
     loadConfig name w = (Raise e, imported name w1)).
Proof.
  intros Hp. rewrite (loadConfig_prepared _ _ _ _ Hp), load_unfold. split.
  - intros e ->. reflexivity.
  - intros m f e -> Hconfig Hfails. unfold Js.get. rewrite Hconfig. simpl.
    destruct Hfails as [->|(v & -> & Hv)]; simpl; [reflexivity |].
    now rewrite Hv.
Qed.

(** X13. What a [config] function gives is not looked at again. When
    [config] is a function, the call returns whatever awaiting its result
    gives: the value itself when the function returns one directly, without
    a promise, and also a falsy value such as [0] or [null], which as a
    plain export would have been refused. What is returned is never a
    promise. *)
Theorem function_result_is_not_checked (name : string) (w w1 : World)
    (files : json) (m : module) (f : error + value) (r : value) :
  prepare name w = (Ok (Some files), w1) ->
  import_module (disk w1) (specifier name (now w1)) = Ok m ->
  m !! "config" = Some (VFunction f) ->
  do_call f = Ok r ->
  loadConfig name w =
    (Ok (Some {| config := r; files := paths_of files |}), imported name w1) /\
  (forall settled, r <> VPromise settled) /\
  (forall v, f = inr v -> (forall settled, v <> VPromise settled) -> r = v).
Proof.
  intros Hp Hm Hconfig Hcall.
  rewrite (loadConfig_prepared _ _ _ _ Hp), load_unfold, Hm.
  unfold Js.get. rewrite Hconfig. simpl. rewrite Hcall.
  split; [reflexivity |]. split.
  - destruct f as [e|v]; [discriminate |]. exact (await_settled v r Hcall).
  - intros v -> Hplain. simpl in Hcall.
    destruct v; simpl in Hcall; try (now injection Hcall).
    now destruct (Hplain settled).
Qed.

End Loading_more.

(** * More about the small functions *)

Section Small.

Context `{Runtime}.

(** X14. [logEsbuildErrors] never throws and touches no file. It prints at
    most one text: the errors when there are any, whatever the warnings;
    the warnings when there are no errors; nothing when there are
    neither. *)
Theorem errors_hide_warnings (result : BuildResult) (w : World) :
  exists lines,
    logEsbuildErrors result w = (Ok tt, moved w (disk w) lines) /\
    (errors result <> [] ->
     lines = [ConsoleLog (Text.join_with (String Text.newline "")
                (formatMessagesSync (errors result) "error" useColors))]) /\
    (errors result = [] -> warnings result <> [] ->
     lines = [ConsoleLog (Text.join_with (String Text.newline "")
                (formatMessagesSync (warnings result) "warning" useColors))]) /\
    (errors result = [] -> warnings result = [] -> lines = []).
Proof.
  exists (printed result). split; [apply logEsbuildErrors_unfold |].
  unfold printed.
  destruct (errors result) as [|e es], (warnings result) as [|x xs]; simpl;
    repeat split; intros; congruence.
Qed.

(** X15. Colours are on exactly when the environment has no [NO_COLOR]
    variable and the arguments have no [--no-color]. The variable counts as
    soon as it is set, whatever its value, the empty one included. *)
Theorem colors_need_no_opt_out :
  (useColors = true <->
   env !! "NO_COLOR" = None /\ ~ In "--no-color" argv) /\
  (forall value, env !! "NO_COLOR" = Some value -> useColors = false).
Proof.
  unfold useColors. split.
  - rewrite negb_true_iff, orb_false_iff. split.
    + intros [Henv Hargv]. split.
      * destruct (env !! "NO_COLOR") eqn:E; [|reflexivity].
        rewrite bool_decide_eq_false in Henv. destruct Henv. eauto.
      * intros Hin. assert (existsb (String.eqb "--no-color") argv = true).
        { apply existsb_exists. exists "--no-color". split; [exact Hin |].
          apply String.eqb_refl. }
        congruence.
    + intros [Henv Hargv]. split.
      * rewrite Henv. apply bool_decide_eq_false. intros [x Hx]. discriminate.
      * destruct (existsb _ argv) eqn:E; [|reflexivity].
        apply existsb_exists in E as (x & Hin & Hx).
        apply String.eqb_eq in Hx. subst x. now destruct Hargv.
  - intros value Hvalue. rewrite Hvalue.
    assert (Hb : bool_decide (is_Some (Some value)) = true)
      by (apply bool_decide_eq_true; eauto).
    now rewrite Hb.
Qed.


End Small.

Lemma starts_with_dot (path : string) :
  Text.startsWith path "." = true <-> exists rest, path = String "." rest.
Proof.
  unfold Text.startsWith. destruct path as [|c rest].
  - split; [discriminate | intros [? ?]; discriminate].
  - change (String.prefix "." (String c rest))
      with (if ascii_dec "." c then String.prefix "" rest else false).
    destruct (ascii_dec "." c) as [Heq|Hne].
    + subst c. split; [eauto | intros _; now destruct rest].
    + split; [discriminate |]. intros [rest' Heq]. injection Heq as Hc _.
      congruence.
Qed.

(** X17. The plugin leaves to Node every import whose specifier does not
    begin with a dot and says nothing about the others, which esbuild then
    bundles: [./a] and [../a] are bundled, and so is [.a]; a package name,
    an absolute path or the empty specifier is external. It never marks an
    import as not external. *)
Theorem only_dotted_imports_are_bundled (path : string) :
  (onResolve externalize_deps path = None <->
   exists rest, path = String "." rest) /\
  (onResolve externalize_deps path = Some true <->
   forall rest, path <> String "." rest) /\
  onResolve externalize_deps path <> Some false.
Proof.
  pose proof (starts_with_dot path) as Hdot.
  unfold externalize_deps. cbn [onResolve].
  destruct (Text.startsWith path "."); cbn [negb].
  - destruct Hdot as [Hdot _]. destruct (Hdot eq_refl) as [rest ->].
    repeat split; try discriminate; eauto.
    intros Hall. now destruct (Hall rest).
  - destruct Hdot as [_ Hdot]. repeat split; try discriminate.
    + intros Hex. now apply Hdot in Hex.
    + intros _ rest ->. assert (false = true) by (apply Hdot; eauto).
      discriminate.
Qed.

(** * The packaging script *)

Lemma lookup_defined (k : string) (props : list (string * option json)) :
  List.NoDup (map fst props) ->
  Json.lookup k (Bundle.defined props) =
  match List.find (fun p => String.eqb k (fst p)) props with
  | Some (_, v) => v
  | None => None
  end.
Proof.
  induction props as [|[k0 [v|]] props IH]; intros Hnodup; simpl.
  - reflexivity.
  - destruct (String.eqb k k0); [reflexivity |].
    apply IH. now apply List.NoDup_cons_iff in Hnodup as [_ ?].
  - apply List.NoDup_cons_iff in Hnodup as [Hfresh Hnodup].
    destruct (String.eqb k k0) eqn:E; [|now apply IH].
    apply String.eqb_eq in E. subst k0. rewrite (IH Hnodup).
    destruct (List.find _ props) as [[k1 v1]|] eqn:Hfind; [|reflexivity].
    apply List.find_some in Hfind as [Hin Hk]. simpl in Hk.
    apply String.eqb_eq in Hk. subst k1. exfalso. apply Hfresh.
    now apply (in_map fst) in Hin.
Qed.

Lemma manifest_literal_keys (pkg : Json.object) :
  map fst (Bundle.manifest_literal pkg) =
  ["name"; "description"; "type"; "version"; "author"; "license"; "main";
   "repository"; "dependencies"].
Proof. reflexivity. Qed.

Lemma manifest_literal_nodup (pkg : Json.object) :
  List.NoDup (map fst (Bundle.manifest_literal pkg)).
Proof.
  rewrite manifest_literal_keys.
  repeat (constructor; [simpl; intuition discriminate |]). constructor.
Qed.

(** X18. The published manifest takes six fields from [package.json] as
    they are ([name], [description], [version], [author], [license],
    [dependencies]), fixes three ([type] is [module], [main] is [index.js],
    and the repository), and has no other: scripts, development
    dependencies and whatever else [package.json] holds are left out. A
    field that [package.json] lacks is left out as well. *)
Theorem manifest_fields (pkg : Json.object) (k : string) :
  Json.lookup k (Bundle.manifest pkg) =
  if existsb (String.eqb k)
       ["name"; "description"; "version"; "author"; "license"; "dependencies"]
  then Json.lookup k pkg
  else if String.eqb k "type" then Some (JStr "module")
  else if String.eqb k "main" then Some (JStr "index.js")
  else if String.eqb k "repository" then Some (JStr "ArnaudBarre/config-loader")
  else None.
Proof.
  unfold Bundle.manifest.
  rewrite (lookup_defined k _ (manifest_literal_nodup pkg)).
  unfold Bundle.manifest_literal. simpl.
  destruct (String.eqb k "name") eqn:E1;
    [apply String.eqb_eq in E1; now subst k |].
  destruct (String.eqb k "description") eqn:E2;
    [apply String.eqb_eq in E2; now subst k |].
  destruct (String.eqb k "type") eqn:E3;
    [apply String.eqb_eq in E3; now subst k |].
  destruct (String.eqb k "version") eqn:E4;
    [apply String.eqb_eq in E4; now subst k |].
  destruct (String.eqb k "author") eqn:E5;
    [apply String.eqb_eq in E5; now subst k |].
  destruct (String.eqb k "license") eqn:E6;
    [apply String.eqb_eq in E6; now subst k |].
  destruct (String.eqb k "main") eqn:E7;
    [apply String.eqb_eq in E7; now subst k |].
  destruct (String.eqb k "repository") eqn:E8;
    [apply String.eqb_eq in E8; now subst k |].
  destruct (String.eqb k "dependencies") eqn:E9;
    [apply String.eqb_eq in E9; now subst k |].
  reflexivity.
Qed.


(** X20. The manifest is written pretty-printed: every text the script
    writes starts with an opening brace followed by a line feed and two
    spaces, so it is never on a single line, unlike the cache file. *)
Theorem manifest_is_pretty_printed (pkg : Json.object) :
  exists rest,
    Bundle.manifest_text pkg =
    String "{" (String Text.newline (String " " (String " " rest))) /\
    ~ one_line (Bundle.manifest_text pkg).
Proof.
  assert (Hshape : exists k v rest, Bundle.manifest pkg = (k, v) :: rest).
  { unfold Bundle.manifest, Bundle.manifest_literal. simpl.
    destruct (Json.lookup "name" pkg); [now eexists _, _, _ |].
    destruct (Json.lookup "description" pkg); now eexists _, _, _. }
  destruct Hshape as (k & v & props & Hshape).
  unfold Bundle.manifest_text. rewrite Hshape, serialize_object.
  unfold Json.wrap. simpl map. cbv iota. simpl String.eqb. cbv iota.
  eexists. split; [reflexivity |].
  unfold one_line. discriminate.
Qed.

(** * More about a valid cache *)

Section Hit.

Context `{Runtime}.

(** X21. What a cache that passes the check gives. With an entry file and
    a cache record every entry of which passes the check of the code (its
    file is there, the text decoded from it is not empty, and [getHash] of
    that text is the recorded hash), the call reads files and loads the
    artifact and does nothing else: no file changes, the only thing it asks
    of the outside is the module, under a specifier made of the artifact
    path and the current time; and when it returns, its [files] are the
    recorded paths in the recorded order. *)
Theorem valid_cache_only_loads (name : string) (w : World)
    (records : list (string * string)) :
  Fs.existsSync (disk w) (entryPoint name) = true ->
  cached name w = Ok (Some (records_json records)) ->
  (forall r, In r records ->
     fresh (disk w) r = true /\ blank (disk w) r = false) ->
  snd (loadConfig name w) =
    moved w (disk w)
      [Import (join cwd (output name) +:+ "?t=" +:+ pretty (now w))] /\
  forall r, fst (loadConfig name w) = Ok (Some r) -> files r = map fst records.
Proof.
  intros Hentry Hcached Hall.
  assert (Hdir : forall r, In r records -> disk w !! fst r <> Some Fs.Dir).
  { intros r Hin Hr. destruct (Hall r Hin) as [Hfresh _].
    unfold fresh, text_at in Hfresh. rewrite Hr in Hfresh. discriminate. }
  pose proof (prepare_records name w records Hentry Hcached Hdir) as Hp.
  assert (Htrue : forallb (fun r => fresh (disk w) r && negb (blank (disk w) r))
                          records = true).
  { apply forallb_forall. intros r Hin. destruct (Hall r Hin) as [-> ->].
    reflexivity. }
  rewrite Htrue in Hp. rewrite (loadConfig_prepared _ _ _ _ Hp). split.
  - rewrite load_world. reflexivity.
  - intros r Hfiles. rewrite <- paths_of_records.
    rewrite load_unfold in Hfiles.
    destruct (import_module _ _) as [m|e]; [|discriminate]. simpl in Hfiles.
    destruct (truthy (Js.get m "config")); [|discriminate].
    destruct (Js.get m "config"); try (injection Hfiles as <-; reflexivity).
    destruct (do_call call); [|discriminate]. now injection Hfiles as <-.
Qed.

End Hit.

(** * Fingerprints *)

Lemma length_append (a b : string) :
  String.length (a +:+ b) = String.length a + String.length b.
Proof. induction a as [|c a IH]; simpl; [reflexivity | now rewrite IH]. Qed.

Lemma lowercase_hex_append (a b : string) :
  lowercase_hex (a +:+ b) = lowercase_hex a && lowercase_hex b.
Proof.
  induction a as [|c a IH]; [reflexivity |].
  change (String c a +:+ b) with (String c (a +:+ b)).
  cbn [lowercase_hex]. rewrite IH. now rewrite andb_assoc.
Qed.

Lemma hex_digit_lowercase (n : N) :
  (n < 16)%N -> lowercase_hex (String (Json.hex_digit n) "") = true.
Proof.
  intros Hn. unfold Json.hex_digit. cbn [lowercase_hex].
  rewrite N_ascii_embedding by (destruct (n <? 10)%N; lia).
  destruct (n <? 10)%N eqn:E.
  - apply N.ltb_lt in E. rewrite andb_true_r. apply orb_true_iff. left.
    apply andb_true_iff. split; apply N.leb_le; lia.
  - apply N.ltb_ge in E. rewrite andb_true_r. apply orb_true_iff. right.
    apply andb_true_iff. split; apply N.leb_le; lia.
Qed.

Lemma hex_shape (k : nat) (n : N) :
  String.length (Sha1.hex k n) = k /\ lowercase_hex (Sha1.hex k n) = true.
Proof.
  revert n. induction k as [|k IH]; intros n; [split; reflexivity |].
  cbn [Sha1.hex]. destruct (IH (N.shiftr n 4)) as [Hlen Hhex].
  rewrite length_append, lowercase_hex_append, Hlen, Hhex. split.
  - simpl. lia.
  - apply hex_digit_lowercase.
    change 15%N with (N.ones 4). rewrite N.land_ones.
    apply N.mod_lt. discriminate.
Qed.

(** X22. With SHA-1 for the digest, a fingerprint is forty characters long
    and made of the digits and the letters [a] to [f] in lower case,
    whatever was hashed, text or bytes, the empty content included. *)
Theorem fingerprint_is_forty_hex_digits
    (compiler : gmap string Fs.node -> BuildOptions
                -> result BuildResult * gmap string Fs.node)
    (exports : module) (c : content) :
  let hash := @getHash (Node.runtime compiler exports) c in
  String.length hash = 40 /\ lowercase_hex hash = true.
Proof.
  assert (Hdigest : forall bytes,
    String.length (Sha1.hexdigest bytes) = 40 /\
    lowercase_hex (Sha1.hexdigest bytes) = true).
  { intros bytes. unfold Sha1.hexdigest.
    destruct (Sha1.hash (Sha1.bytes_of bytes)) as [a b c0 d e].
    rewrite !length_append, !lowercase_hex_append.
    destruct (hex_shape 8 a) as [-> ->], (hex_shape 8 b) as [-> ->],
      (hex_shape 8 c0) as [-> ->], (hex_shape 8 d) as [-> ->],
      (hex_shape 8 e) as [-> ->].
    split; reflexivity. }
  intros hash. unfold hash. destruct c as [s|bytes]; apply Hdigest.
Qed.

(** * More about the artifact *)

Section Artifact.

Context `{Runtime}.



(** X24. A valid cache is trusted without a look at the artifact. With an
    entry file and a cache record all of whose files are there, not empty
    and of the recorded fingerprint, a call whose load of the artifact
    fails, as it does when the artifact has been deleted, ends with that
    failure: it does not compile again, and it writes nothing. *)
Theorem lost_artifact_is_not_rebuilt (name : string) (w : World)
    (records : list (string * string)) (e : error) :
  Fs.existsSync (disk w) (entryPoint name) = true ->
  cached name w = Ok (Some (records_json records)) ->
  (forall r, In r records ->
     fresh (disk w) r = true /\ blank (disk w) r = false) ->
  import_module (disk w) (specifier name (now w)) = Raise e ->
  loadConfig name w = (Raise e, imported name w) /\
  compilations (since w (snd (loadConfig name w))) = 0 /\
  written (since w (snd (loadConfig name w))) = [].
Proof.
  intros Hentry Hcached Hall Himport.
  assert (Hdir : forall r, In r records -> disk w !! fst r <> Some Fs.Dir).
  { intros r Hin Hr. destruct (Hall r Hin) as [Hfresh _].
    unfold fresh, text_at in Hfresh. rewrite Hr in Hfresh. discriminate. }
  pose proof (prepare_records name w records Hentry Hcached Hdir) as Hp.
  assert (Htrue : forallb (fun r => fresh (disk w) r && negb (blank (disk w) r))
                          records = true).
  { apply forallb_forall. intros r Hin. destruct (Hall r Hin) as [-> ->].
    reflexivity. }
  rewrite Htrue in Hp.
  assert (Hrun : loadConfig name w = (Raise e, imported name w)).
  { rewrite (loadConfig_prepared _ _ _ _ Hp), load_unfold, Himport.
    reflexivity. }
  rewrite Hrun. cbn [snd].
  rewrite (since_app w (imported name w) [Import (specifier name (now w))])
    by reflexivity.
  auto.
Qed.

End Artifact.

(** * More of the loader at work *)

(** Reading a cache file that [write] left. *)
Lemma read_gives_stamped_objects_witness :
  let rt := Node.healthy Node.exports_plain in
  read (@jsonCache rt "config-hashes.json" (VersionNumber 4)) Node.stamped_cache =
    (Ok (Some (JObj [("files", JArr [])])), Node.stamped_cache) /\
  exists (bytes : string) (props : Json.object),
    disk Node.stamped_cache !! "config-hashes.json" = Some (Fs.File bytes) /\
    @JSON_parse rt (Utf8.decode bytes) = Some (JObj props) /\
    Json.lookup "version" props = Some (JNum 4) /\
    JObj [("files", JArr [])] = JObj (Json.remove "version" props) /\
    member (JObj [("files", JArr [])]) "version" = Ok None.
Proof.
  intros rt.
  assert (Hread :
    read (@jsonCache rt "config-hashes.json" (VersionNumber 4)) Node.stamped_cache =
    (Ok (Some (JObj [("files", JArr [])])), Node.stamped_cache))
    by (vm_compute; reflexivity).
  split; [exact Hread |].
  exact (proj2 (@read_gives_stamped_objects rt "config-hashes.json"
                  (VersionNumber 4) Node.stamped_cache Node.stamped_cache
                  (JObj [("files", JArr [])]) Hread)).
Defined.



(** The project before any call: there is no cache file. *)
Lemma unusable_cache_witness :
  let rt := Node.healthy Node.exports_plain in
  let w := Node.world Node.project in
  Fs.existsSync (disk w) (entryPoint "app") = true /\
  disk w !! @cache_path rt "app" = None /\
  exists es,
    events (snd (@loadConfig rt "app" w)) =
    (events w ++ Compile (build_options (entryPoint "app") (@output rt "app")) :: es)%list.
Proof.
  intros rt w.
  assert (Hentry : Fs.existsSync (disk w) (entryPoint "app") = true)
    by (vm_compute; reflexivity).
  assert (Hnone : disk w !! @cache_path rt "app" = None)
    by (vm_compute; reflexivity).
  split; [exact Hentry |]. split; [exact Hnone |].
  exact (@unusable_cache_is_rebuilt rt "app" w Hentry (or_introl Hnone)).
Defined.

(** A cache record whose [files] is a string. *)
Lemma files_must_be_an_array_witness :
  let rt := Node.healthy Node.exports_plain in
  let w := Node.world Node.odd_cache in
  let props := [("version", JNum 4); ("files", JStr "x")] in
  disk w !! @cache_path rt "app" = Some (Fs.File (Json.stringify (JObj props))) /\
  @JSON_parse rt (Utf8.decode (Json.stringify (JObj props))) = Some (JObj props) /\
  @loadConfig rt "app" w = (Raise TypeError, w).
Proof.
  intros rt w props.
  assert (Hentry : Fs.existsSync (disk w) (entryPoint "app") = true)
    by (vm_compute; reflexivity).
  assert (Hfile : disk w !! @cache_path rt "app" =
                  Some (Fs.File (Json.stringify (JObj props))))
    by (vm_compute; reflexivity).
  assert (Hne : Utf8.decode (Json.stringify (JObj props)) <> "")
    by (vm_compute; discriminate).
  assert (Hparse : @JSON_parse rt (Utf8.decode (Json.stringify (JObj props))) =
                   Some (JObj props)) by (vm_compute; reflexivity).
  assert (Hversion : Json.lookup "version" props = Some (JNum 4)) by reflexivity.
  assert (Hshape : forall items, JStr "x" <> JArr items) by discriminate.
  split; [exact Hfile |]. split; [exact Hparse |].
  exact (proj2 (@files_must_be_an_array rt "app" w _ props
                  Hentry Hfile Hne Hparse Hversion)
           (JStr "x") eq_refl eq_refl Hshape).
Defined.

(** The project after a first call, the helper deleted: the record of the
    configuration file is fresh, that of the helper is stale. *)
Lemma check_stops_witness :
  let rt := Node.with_helper in
  let w := Node.world (delete "helper.ts" Node.helped) in
  @cached rt "app" w = Ok (Some (records_json Node.helper_records)) /\
  @fresh rt (disk w)
    ("app.config.ts", Sha1.hexdigest "export const config = { port: 3000 }") = true /\
  @fresh rt (disk w) ("helper.ts", Sha1.hexdigest "export const port = 3000") = false /\
  exists es,
    events (snd (@loadConfig rt "app" w)) =
    (events w ++ Compile (build_options (entryPoint "app") (@output rt "app")) :: es)%list.
Proof.
  intros rt w.
  pose (front := [("app.config.ts",
                   Sha1.hexdigest "export const config = { port: 3000 }")]).
  pose (record := ("helper.ts", Sha1.hexdigest "export const port = 3000")).
  assert (Hentry : Fs.existsSync (disk w) (entryPoint "app") = true)
    by (vm_compute; reflexivity).
  assert (Hcached : @cached rt "app" w =
    Ok (Some (JArr (map (fun r => JArr [JStr (fst r); JStr (snd r)]) front
                    ++ JArr [JStr (fst record); JStr (snd record)] :: [])%list)))
    by (vm_compute; reflexivity).
  assert (Hfresh : @fresh rt (disk w)
    ("app.config.ts", Sha1.hexdigest "export const config = { port: 3000 }") = true)
    by (vm_compute; reflexivity).
  assert (Hblank : blank (disk w)
    ("app.config.ts", Sha1.hexdigest "export const config = { port: 3000 }") = false)
    by (vm_compute; reflexivity).
  assert (Hfront : forall r, In r front ->
            @fresh rt (disk w) r = true /\ blank (disk w) r = false).
  { intros r [<-|[]]. split; [exact Hfresh | exact Hblank]. }
  assert (Hdir : disk w !! fst record <> Some Fs.Dir)
    by (vm_compute; discriminate).
  assert (Hstale : blank (disk w) record || negb (@fresh rt (disk w) record) = true)
    by (vm_compute; reflexivity).
  split; [exact Hcached |]. split; [exact Hfresh |].
  split; [vm_compute; reflexivity |].
  exact (@check_stops_at_first_stale rt "app" w front record []
           Hentry Hcached Hfront Hdir Hstale).
Defined.

(** The same with a directory where the helper was. *)
Lemma directory_dependency_witness :
  let rt := Node.with_helper in
  let w := Node.world Node.helper_is_directory in
  disk w !! "helper.ts" = Some Fs.Dir /\
  @loadConfig rt "app" w = (Raise (SystemError Fs.EISDIR "helper.ts"), w).
Proof.
  intros rt w.
  pose (front := [("app.config.ts",
                   Sha1.hexdigest "export const config = { port: 3000 }")]).
  assert (Hentry : Fs.existsSync (disk w) (entryPoint "app") = true)
    by (vm_compute; reflexivity).
  assert (Hcached : @cached rt "app" w =
    Ok (Some (JArr (map (fun r => JArr [JStr (fst r); JStr (snd r)]) front
                    ++ JArr [JStr "helper.ts";
                             JStr (Sha1.hexdigest "export const port = 3000")]
                       :: [])%list)))
    by (vm_compute; reflexivity).
  assert (Hfront : forall r, In r front ->
            @fresh rt (disk w) r = true /\ blank (disk w) r = false).
  { intros r [<-|[]]. split; vm_compute; reflexivity. }
  assert (Hdir : disk w !! "helper.ts" = Some Fs.Dir) by (vm_compute; reflexivity).
  split; [exact Hdir |].
  exact (@directory_dependency_is_fatal rt "app" w front "helper.ts" _ []
           Hentry Hcached Hfront Hdir).
Defined.

(** A first call with a compiler that returns with a warning: the warning
    is printed, the cache and the marker are written, the artifact is
    loaded. *)
Lemma build_is_recorded_witness :
  let rt := Node.with_warning in
  let w := Node.world Node.project in
  let built := Node.built Node.project in
  let result := {| errors := []; warnings := ["unused import"];
                   metafile_inputs := ["app.config.ts"] |} in
  @prepare rt "app" w = @rebuilt rt "app" w /\
  @printed rt result = [ConsoleLog "warning: unused import"] /\
  exists records,
    map fst records = ["app.config.ts"] /\
    (forall p h, In (p, h) records ->
       exists bytes, built !! p = Some (Fs.File bytes) /\
                     h = @getHash rt (Buffer bytes)) /\
    snd (@loadConfig rt "app" w) =
      moved w (<[@marker_path rt "app" := Fs.File marker]>
                 (<[@cache_path rt "app" := Fs.File (cache_text records)]> built))
        (Compile (build_options (entryPoint "app") (@output rt "app"))
         :: @printed rt result ++
            [WriteFile (@cache_path rt "app") (cache_text records);
             WriteFile (@marker_path rt "app") marker;
             Import (@specifier rt "app" (now w))]) /\
    (forall r, fst (@loadConfig rt "app" w) = Ok (Some r) ->
               files r = ["app.config.ts"]).
Proof.
  intros rt w built result.
  assert (H1 : @prepare rt "app" w = @rebuilt rt "app" w)
    by (vm_compute; reflexivity).
  assert (H2 : @build rt (disk w)
                 (build_options (entryPoint "app") (@output rt "app")) =
               (Ok result, built)) by reflexivity.
  assert (H3 : forall p, In p (metafile_inputs result) ->
                 exists bytes, built !! p = Some (Fs.File bytes)).
  { intros p [<-|[]]. exists "export const config = { port: 3000 }".
    vm_compute. reflexivity. }
  assert (H4 : built !! @cache_path rt "app" <> Some Fs.Dir)
    by (vm_compute; discriminate).
  assert (H5 : built !! @marker_path rt "app" <> Some Fs.Dir)
    by (vm_compute; discriminate).
  split; [exact H1 |]. split; [reflexivity |].
  exact (@build_is_recorded rt "app" w result built H1 H2 H3 H4 H5).
Defined.

(** A compiler that reports a file that is not there. *)
Lemma unreadable_input_witness :
  let rt := Node.with_ghost in
  let w := Node.world Node.project in
  let built := Node.built Node.project in
  @prepare rt "app" w = @rebuilt rt "app" w /\
  built !! "ghost.ts" = None /\
  @loadConfig rt "app" w =
    (Raise (SystemError Fs.ENOENT "ghost.ts"),
     moved w built [Compile (build_options (entryPoint "app") (@output rt "app"))]).
Proof.
  intros rt w built.
  pose (result := {| errors := []; warnings := [];
                     metafile_inputs := ["app.config.ts"; "ghost.ts"] |}).
  assert (H1 : @prepare rt "app" w = @rebuilt rt "app" w)
    by (vm_compute; reflexivity).
  assert (H2 : @build rt (disk w)
                 (build_options (entryPoint "app") (@output rt "app")) =
               (Ok result, built)) by reflexivity.
  assert (H3 : metafile_inputs result = (["app.config.ts"] ++ "ghost.ts" :: [])%list)
    by reflexivity.
  assert (H4 : forall p, In p ["app.config.ts"] ->
                 exists bytes, built !! p = Some (Fs.File bytes)).
  { intros p [<-|[]]. exists "export const config = { port: 3000 }".
    vm_compute. reflexivity. }
  assert (Hnone : built !! "ghost.ts" = None) by (vm_compute; reflexivity).
  assert (H5 : forall bytes, built !! "ghost.ts" <> Some (Fs.File bytes))
    by (intros bytes; rewrite Hnone; discriminate).
  split; [exact H1 |]. split; [exact Hnone |].
  rewrite (@unreadable_input_is_fatal rt "app" w result built
             ["app.config.ts"] "ghost.ts" [] H1 H2 H3 H4 H5).
  rewrite Hnone. reflexivity.
Defined.

(** A [config] function that throws. *)
Lemma module_failures_witness :
  let rt := Node.healthy Node.exports_throwing in
  let w := Node.world Node.project in
  @prepare rt "app" w = (Ok (Some (Node.found rt w)), Node.examined rt w) /\
  @import_module rt (disk (Node.examined rt w))
    (@specifier rt "app" (now (Node.examined rt w))) = Ok Node.exports_throwing /\
  @loadConfig rt "app" w =
    (Raise (Thrown "no port"), @imported rt "app" (Node.examined rt w)).
Proof.
  intros rt w.
  assert (Hp : @prepare rt "app" w = (Ok (Some (Node.found rt w)), Node.examined rt w))
    by (vm_compute; reflexivity).
  assert (Hm : @import_module rt (disk (Node.examined rt w))
                 (@specifier rt "app" (now (Node.examined rt w))) =
               Ok Node.exports_throwing) by (vm_compute; reflexivity).
  split; [exact Hp |]. split; [exact Hm |].
  exact (proj2 (@module_failures_propagate rt "app" w (Node.examined rt w)
                  (Node.found rt w) Hp)
           Node.exports_throwing (inl (Thrown "no port")) (Thrown "no port")
           Hm eq_refl (or_introl eq_refl)).
Defined.

(** A [config] function that returns the number zero, and no promise. *)
Lemma function_result_witness :
  let rt := Node.healthy Node.exports_lazy_zero in
  let w := Node.world Node.project in
  @prepare rt "app" w = (Ok (Some (Node.found rt w)), Node.examined rt w) /\
  truthy (VNumber 0) = false /\
  fst (@loadConfig rt "app" w) =
    Ok (Some {| config := VNumber 0; files := ["app.config.ts"] |}).
Proof.
  intros rt w.
  assert (Hp : @prepare rt "app" w = (Ok (Some (Node.found rt w)), Node.examined rt w))
    by (vm_compute; reflexivity).
  assert (Hm : @import_module rt (disk (Node.examined rt w))
                 (@specifier rt "app" (now (Node.examined rt w))) =
               Ok Node.exports_lazy_zero) by (vm_compute; reflexivity).
  split; [exact Hp |]. split; [reflexivity |].
  destruct (@function_result_is_not_checked rt "app" w (Node.examined rt w)
              (Node.found rt w) Node.exports_lazy_zero (inr (VNumber 0))
              (VNumber 0) Hp Hm eq_refl eq_refl) as [Hrun _].
  rewrite Hrun. reflexivity.
Defined.

(** The project with its helper after a first call. *)
Lemma records_decide_witness :
  let rt := Node.with_helper in
  let w := Node.world Node.helped in
  Fs.existsSync (disk w) (entryPoint "app") = true /\
  @cached rt "app" w = Ok (Some (records_json Node.helper_records)) /\
  (compilations (since w (snd (@loadConfig rt "app" w))) = 0 <->
   forall r, In r Node.helper_records ->
     exists text,
       readMaybeFileSync (fst r) w = (Ok (Some text), w) /\
       text <> "" /\
       @getHash rt (Text text) = snd r).
Proof.
  intros rt w.
  assert (Hentry : Fs.existsSync (disk w) (entryPoint "app") = true)
    by (vm_compute; reflexivity).
  assert (Hcached : @cached rt "app" w = Ok (Some (records_json Node.helper_records)))
    by (vm_compute; reflexivity).
  assert (Hreads : forall r, In r Node.helper_records ->
            exists content, readMaybeFileSync (fst r) w = (Ok content, w)).
  { intros r [<-|[<-|[]]];
      [exists (Some "export const config = { port: 3000 }")
      |exists (Some "export const port = 3000")];
      vm_compute; reflexivity. }
  split; [exact Hentry |]. split; [exact Hcached |].
  exact (@records_decide rt "app" w Node.helper_records Hentry Hcached Hreads).
Defined.

Lemma valid_cache_witness :
  let rt := Node.with_helper in
  let w := Node.world Node.helped in
  (forall r, In r Node.helper_records ->
     @fresh rt (disk w) r = true /\ blank (disk w) r = false) /\
  snd (@loadConfig rt "app" w) =
    moved w Node.helped
      [Import ("node_modules/.app/config.js?t=1700000000000")] /\
  forall r, fst (@loadConfig rt "app" w) = Ok (Some r) ->
            files r = ["app.config.ts"; "helper.ts"].
Proof.
  intros rt w.
  assert (Hentry : Fs.existsSync (disk w) (entryPoint "app") = true)
    by (vm_compute; reflexivity).
  assert (Hcached : @cached rt "app" w = Ok (Some (records_json Node.helper_records)))
    by (vm_compute; reflexivity).
  assert (Hall : forall r, In r Node.helper_records ->
            @fresh rt (disk w) r = true /\ blank (disk w) r = false).
  { intros r [<-|[<-|[]]]; split; vm_compute; reflexivity. }
  split; [exact Hall |].
  exact (@valid_cache_only_loads rt "app" w Node.helper_records
           Hentry Hcached Hall).
Defined.

(** The project with its helper after a first call, the artifact deleted. *)
Lemma lost_artifact_witness :
  let rt := Node.with_helper in
  let w := Node.world (delete "node_modules/.app/config.js" Node.helped) in
  Node.helped !! "node_modules/.app/config.js" = Some (Fs.File "// bundle") /\
  @cached rt "app" w = Ok (Some (records_json Node.helper_records)) /\
  @loadConfig rt "app" w =
    (Raise (Thrown "ERR_MODULE_NOT_FOUND"), @imported rt "app" w) /\
  compilations (since w (snd (@loadConfig rt "app" w))) = 0 /\
  written (since w (snd (@loadConfig rt "app" w))) = [].
Proof.
  intros rt w.
  assert (Hentry : Fs.existsSync (disk w) (entryPoint "app") = true)
    by (vm_compute; reflexivity).
  assert (Hcached : @cached rt "app" w = Ok (Some (records_json Node.helper_records)))
    by (vm_compute; reflexivity).
  assert (Hall : forall r, In r Node.helper_records ->
            @fresh rt (disk w) r = true /\ blank (disk w) r = false).
  { intros r [<-|[<-|[]]]; split; vm_compute; reflexivity. }
  assert (Himport : @import_module rt (disk w) (@specifier rt "app" (now w)) =
                    Raise (Thrown "ERR_MODULE_NOT_FOUND"))
    by (vm_compute; reflexivity).
  split; [vm_compute; reflexivity |]. split; [exact Hcached |].
  exact (@lost_artifact_is_not_rebuilt rt "app" w Node.helper_records _
           Hentry Hcached Hall Himport).
Defined.
